(** * Verification of the batch conversion worker of [script.py]

    The development embeds [ConversionWorker] (its constructor,
    [run_conversions] and [stop_conversions]) together with the few
    [str] and [os.path] operations the worker calls, and proves the
    properties of the specification about file discovery, command
    construction, progress reporting, cancellation and fatal errors.

    Modelling conventions.
    - A Python [str] is the [string] of the bytes of its UTF-8
      encoding.  Lengths and slices count characters, not bytes, and
      [str.strip] knows the white space of Unicode.  [str.lower] is
      modelled on ASCII only (bytes above 127 are left unchanged): the
      theorems about letter case are stated for ASCII texts, where
      this is what [str.lower] does.
    - [os.path] is [posixpath] (separator [/]).
    - The worker is a function from an environment (the results the
      operating system and the external engine give, and the points at
      which the controlling thread calls [stop_conversions]) to the
      trace of actions it performs; signal emissions are [Emit] actions.
    - [stop_conversions] runs in the controlling thread.  A call lands
      at one of the points of [FileRun] (or after the loop) and runs
      there without interruption, except that the moment of its last
      assignment (line 178) relative to the worker's reads of
      [self.current_process] is a choice of the environment
      ([ClearPoint]).
    - Every external process is assumed to exit: [communicate()]
      returns or raises. *)

From Stdlib Require Import ZArith Ascii DecimalString.
From stdpp Require Import base list strings sorting gmap.

(** ** Python [str] operations *)

Module PyStr.

(** [c.lower()] for a character of ASCII; the bytes of any other
    character are left as they are. *)
Definition lower_char (c : ascii) : ascii :=
  let n := nat_of_ascii c in
  if (65 <=? n)%nat && (n <=? 90)%nat then ascii_of_nat (n + 32) else c.

(** [s.lower()] of an ASCII text. *)
Fixpoint lower (s : string) : string :=
  match s with
  | EmptyString => EmptyString
  | String c s' => String (lower_char c) (lower s')
  end.

(** [c in s] for a one-character string [c]. *)
Fixpoint contains_char (c : ascii) (s : string) : bool :=
  match s with
  | EmptyString => false
  | String a s' => if Ascii.eqb a c then true else contains_char c s'
  end.

(** [s.split(sep)] for a one-character separator: the fields between
    the separators, never an empty list. *)
Fixpoint split (sep : ascii) (s : string) : list string :=
  match s with
  | EmptyString => [EmptyString]
  | String a s' =>
      if Ascii.eqb a sep then EmptyString :: split sep s'
      else match split sep s' with
           | [] => [String a EmptyString]
           | fld :: flds => String a fld :: flds
           end
  end.

(** [l[-1]] on the result of [split] (which is never empty). *)
Definition last_field (l : list string) : string := List.last l EmptyString.

(** [s.startswith(p)]. *)
Definition startswith (p s : string) : bool := String.prefix p s.

(** [s.endswith(c)] for a one-character string [c]. *)
Fixpoint endswith_char (c : ascii) (s : string) : bool :=
  match s with
  | EmptyString => false
  | String a EmptyString => Ascii.eqb a c
  | String _ s' => endswith_char c s'
  end.

(** [s.replace(old, new)] for a non-empty [old]: the occurrences of
    [old] are replaced from left to right, without overlap.  [skip]
    counts the characters of a matched occurrence still to drop. *)
Fixpoint replace_go (old new : string) (skip : nat) (s : string) : string :=
  match s with
  | EmptyString => EmptyString
  | String a s' =>
      match skip with
      | S k => replace_go old new k s'
      | O =>
          if String.prefix old s
          then new +:+ replace_go old new (String.length old - 1) s'
          else String a (replace_go old new 0 s')
      end
  end.

Definition replace (old new s : string) : string := replace_go old new 0 s.

(** [sep.join(l)]. *)
Definition join (sep : string) (l : list string) : string := String.concat sep l.

(** Is [c] a continuation byte, one that goes on with the character
    begun before it? *)
Definition is_continuation (c : ascii) : bool :=
  let n := nat_of_ascii c in (128 <=? n)%nat && (n <? 192)%nat.


(** [s[:n]]: the first [n] characters of [s], each with its
    continuation bytes. *)
Fixpoint slice_to (n : nat) (s : string) {struct s} : string :=
  match s with
  | EmptyString => EmptyString
  | String a s' =>
      if is_continuation a then String a (slice_to n s')
      else match n with
           | O => EmptyString
           | S k => String a (slice_to k s')
           end
  end.

(** [str(n)] for a non-negative [int] and for an [int]. *)
Definition of_nat (n : nat) : string := NilZero.string_of_uint (Nat.to_uint n).
Definition of_Z (z : Z) : string := NilZero.string_of_int (Z.to_int z).

(** Truth value of a string: non-empty. *)
Definition truthy (s : string) : bool :=
  match s with EmptyString => false | String _ _ => true end.

(** The line feed of [\n]. *)
Definition nl : string := String (ascii_of_nat 10) EmptyString.

End PyStr.

(** ** [posixpath] operations *)

Module PosixPath.

Definition sep : ascii := "/"%char.
Definition extsep : ascii := "."%char.

(** [os.path.join(a, b)]. *)
Definition join (a b : string) : string :=
  if PyStr.startswith (String sep EmptyString) b then b
  else if negb (PyStr.truthy a) || PyStr.endswith_char sep a then a +:+ b
  else a +:+ String sep b.

(** The text after the last [c] of [s], or [None] when [s] has no
    [c]: [s[s.rfind(c)+1:]]. *)
Fixpoint after_last (c : ascii) (s : string) : option string :=
  match s with
  | EmptyString => None
  | String a s' =>
      match after_last c s' with
      | Some t => Some t
      | None => if Ascii.eqb a c then Some s' else None
      end
  end.

(** [os.path.basename(p)]: [p[p.rfind('/')+1:]]. *)
Definition basename (p : string) : string :=
  match after_last sep p with
  | Some t => t
  | None => p
  end.

(** The text before the last [c] of [s]: [s[:s.rfind(c)]]. *)
Fixpoint before_last (c : ascii) (s : string) : option string :=
  match s with
  | EmptyString => None
  | String a s' =>
      match before_last c s' with
      | Some t => Some (String a t)
      | None => if Ascii.eqb a c then Some EmptyString else None
      end
  end.

(** Is every character of [s] equal to [c]? *)
Fixpoint all_char (c : ascii) (s : string) : bool :=
  match s with
  | EmptyString => true
  | String a s' => Ascii.eqb a c && all_char c s'
  end.

(** [os.path.splitext(p)] for a [p] without separator ([genericpath._splitext]
    with [sepIndex = -1]): split at the last dot unless only dots
    precede it. *)
Definition splitext_name (p : string) : string * string :=
  match before_last extsep p, after_last extsep p with
  | Some root, Some ext =>
      if all_char extsep root then (p, EmptyString)
      else (root, String extsep ext)
  | _, _ => (p, EmptyString)
  end.

(** [os.path.splitext(p)]: the directory part is kept in the root. *)
Definition splitext (p : string) : string * string :=
  match before_last sep p with
  | Some dir =>
      let '(root, ext) := splitext_name (basename p) in
      (dir +:+ String sep root, ext)
  | None => splitext_name p
  end.

End PosixPath.

(** ** Data model *)

(** [ffmpeg_params]: the dictionary of encoder settings, one field per
    key the worker reads. *)
Record EncoderConfig := {
  VIDEO_CODEC_AMF : string;
  RC_MODE : string;
  QP_VALUE : string;
  BITRATE_VBR : string;
  MAX_BITRATE_VBR : string;
  QUALITY_PRESET : string;
  AUDIO_CODEC : string;
  AUDIO_BITRATE : string
}.

Definition DEFAULT_FFMPEG_CONFIG : EncoderConfig := {|
  VIDEO_CODEC_AMF := "h264_amf";
  RC_MODE := "cqp";
  QP_VALUE := "23";
  BITRATE_VBR := "5M";
  MAX_BITRATE_VBR := "8M";
  QUALITY_PRESET := "quality";
  AUDIO_CODEC := "aac";
  AUDIO_BITRATE := "192k"
|}.

(** The four signals of the worker. *)
Inductive Event :=
| Progress (message : string)
| OverallProgress (done total : nat)
| Finished (summary : string)
| CriticalError (message : string).

(** One element of the engine's argument vector.  The text is what the
    worker passes; the constructor records whether the worker wrote it
    as an option name or as an operand (program name, configured value,
    path). *)
Inductive Arg :=
| Flag (name : string)
| Value (text : string).

Definition arg_text (a : Arg) : string :=
  match a with Flag s => s | Value s => s end.

(** What the worker does to the outside world, in order. *)
Inductive Action :=
| Emit (e : Event)
| MakeDirs (path : string)
| ListDir (path : string)
| Popen (argv : list string)
| Terminate (handle : nat)
| Kill (handle : nat).

(** The attributes set by [__init__] that never change afterwards. *)
Record Worker := {
  input_dir : string;
  output_dir : string;
  ffmpeg_params : EncoderConfig;
  target_extensions : list string
}.

(** [ConversionWorker.__init__] (lines 36-43). *)
Definition new_worker (input_dir output_dir : string) (ffmpeg_params : EncoderConfig)
    (target_extensions_str_list : list string) : Worker := {|
  input_dir := input_dir;
  output_dir := output_dir;
  ffmpeg_params := ffmpeg_params;
  target_extensions :=
    map PyStr.lower (List.filter PyStr.truthy target_extensions_str_list)
|}.

(** The attributes shared with the controlling thread: [_is_running]
    and [current_process] (the handle is the index of the file). *)
Record RunState := {
  is_running : bool;
  current_process : option nat
}.

(** The counters of the loop. *)
Record Counters := {
  files_processed_count : nat;
  files_succeeded_count : nat
}.

(** The directories on disk. *)
Record FileSystem := {
  directories : gset string
}.

(** ** The environment of one run *)

(** Result of [os.listdir]. *)
Inductive ListDirResult :=
| Listed (names : list string)
| ListNotFound
| ListRaised (e : string).

(** Result of launching the engine for one file and waiting for it. *)
Inductive LaunchResult :=
| EngineNotFound                                  (* Popen raises FileNotFoundError *)
| PopenRaised (e : string)                        (* Popen raises something else *)
| CommunicateRaised (e : string)                  (* communicate() raises *)
| Exited (stdout stderr : string) (return_code : Z).

(** Result of [terminate()] followed by [wait(timeout=2)]. *)
Inductive TerminateResult :=
| Terminated
| TimeoutExpired
| TerminateRaised (e : string).

(** When the last assignment of [stop_conversions] (line 178) runs,
    relative to the worker's reads of [self.current_process]: before
    the read of line 132, between it and the next read (line 133, or
    152 in the handler), or after that one. *)
Inductive ClearPoint :=
| BeforeCommunicate
| BeforeRead
| AfterRead.

(** A [stop_conversions] call that lands while the engine is live. *)
Record LiveStop := {
  terminate_result : TerminateResult;
  clear_point : ClearPoint
}.

(** Where [stop_conversions] calls land during the iteration of one
    file, and what the engine does. *)
Record FileRun := {
  stop_at_top : bool;              (* before the test of line 96 *)
  stop_before_launch : bool;       (* after it, before Popen *)
  launch : LaunchResult;
  stop_while_live : option LiveStop; (* during communicate() *)
  stop_after_exit : bool           (* after line 134, before the test of line 136 *)
}.

Record Env := {
  makedirs_error : option string;  (* the OSError of os.makedirs, if it raises *)
  listdir_result : ListDirResult;
  isfile : string -> bool;
  disk : FileSystem;               (* the directories before the run *)
  schedule : nat -> FileRun;       (* by index in the sorted file list *)
  stop_after_loop : bool           (* after the loop, before the test of line 158 *)
}.

(** An iteration that nobody cancels. *)
Definition quiet (l : LaunchResult) : FileRun := {|
  stop_at_top := false;
  stop_before_launch := false;
  launch := l;
  stop_while_live := None;
  stop_after_exit := false
|}.

(** ** File discovery (lines 64-81) *)

(** Line 68. *)
Definition file_ext_lower (filename : string) : string :=
  if PyStr.contains_char "."%char filename
  then PyStr.lower (PyStr.last_field (PyStr.split "."%char filename))
  else "".

(** The loop of lines 66-72: the full paths appended to
    [files_to_convert], in listing order. *)
Fixpoint collect_files (w : Worker) (isfile : string -> bool)
    (all_files_in_dir : list string) : list string :=
  match all_files_in_dir with
  | [] => []
  | filename :: rest =>
      if bool_decide (file_ext_lower filename ∈ target_extensions w) then
        let full_path := PosixPath.join (input_dir w) filename in
        if isfile full_path then full_path :: collect_files w isfile rest
        else collect_files w isfile rest
      else collect_files w isfile rest
  end.

(** Line 81: [sorted(list(set(files_to_convert)))]. *)
Definition sorted_set (files_to_convert : list string) : list string :=
  merge_sort String.le (elements (list_to_set files_to_convert : gset string)).

Definition scan_files (w : Worker) (isfile : string -> bool)
    (all_files_in_dir : list string) : list string :=
  sorted_set (collect_files w isfile all_files_in_dir).

(** ** Command construction (lines 101-125) *)

(** Line 104. *)
Definition codec_short_name (video_codec : string) : string :=
  PyStr.replace "h" "x" (PyStr.replace "_amf" "" video_codec).

(** Lines 101-102. *)
Definition filename_no_ext (file_path : string) : string :=
  fst (PosixPath.splitext (PosixPath.basename file_path)).

(** Line 105. *)
Definition output_filename (cfg : EncoderConfig) (file_path : string) : string :=
  filename_no_ext file_path +:+ "_jellyfin_" +:+
  codec_short_name (VIDEO_CODEC_AMF cfg) +:+ "_gpu.mp4".

(** Line 106. *)
Definition output_file_path (w : Worker) (file_path : string) : string :=
  PosixPath.join (output_dir w) (output_filename (ffmpeg_params w) file_path).

(** Line 120: the message of the fallback branch. *)
Definition fallback_notice (cfg : EncoderConfig) : string :=
  "Modo RC '" +:+ RC_MODE cfg +:+
  "' desconhecido/inválido. Usando CQP (QP 23), quality 'quality'.".

(** Lines 112-122: the rate-control arguments and the messages emitted
    while choosing them. *)
Definition rate_control (cfg : EncoderConfig) : list Arg * list Event :=
  if String.eqb (RC_MODE cfg) "cqp" then
    ([Flag "-c:v"; Value (VIDEO_CODEC_AMF cfg); Flag "-rc"; Value (RC_MODE cfg);
      Flag "-qp"; Value (QP_VALUE cfg); Flag "-quality"; Value (QUALITY_PRESET cfg)],
     [])
  else if String.eqb (RC_MODE cfg) "vbr_peak" then
    ([Flag "-c:v"; Value (VIDEO_CODEC_AMF cfg); Flag "-rc"; Value (RC_MODE cfg);
      Flag "-b:v"; Value (BITRATE_VBR cfg); Flag "-maxrate"; Value (MAX_BITRATE_VBR cfg);
      Flag "-quality"; Value (QUALITY_PRESET cfg)],
     [])
  else
    ([Flag "-c:v"; Value (VIDEO_CODEC_AMF cfg); Flag "-rc"; Value "cqp";
      Flag "-qp"; Value "23"; Flag "-quality"; Value "quality"],
     [Progress (fallback_notice cfg)]).

(** Lines 110-125: the argument vector, element by element. *)
Definition ffmpeg_cmd_args (w : Worker) (file_path : string) : list Arg :=
  let cfg := ffmpeg_params w in
  [Value "ffmpeg"; Flag "-i"; Value file_path]
  ++ fst (rate_control cfg)
  ++ [Flag "-c:a"; Value (AUDIO_CODEC cfg); Flag "-b:a"; Value (AUDIO_BITRATE cfg);
      Flag "-movflags"; Value "+faststart"; Flag "-y";
      Value (output_file_path w file_path)].

(** [ffmpeg_cmd_list] as handed to [subprocess.Popen]. *)
Definition ffmpeg_cmd_list (w : Worker) (file_path : string) : list string :=
  map arg_text (ffmpeg_cmd_args w file_path).

(** ** Cancellation (lines 164-178) *)

Definition set_running (b : bool) (st : RunState) : RunState :=
  {| is_running := b; current_process := current_process st |}.

Definition set_process (p : option nat) (st : RunState) : RunState :=
  {| is_running := is_running st; current_process := p |}.

(** Lines 166-177: everything but the last assignment. *)
Definition stop_request (t : TerminateResult) (st : RunState) : RunState * list Action :=
  let st' := set_running false st in
  match current_process st with
  | None => (st', [Emit (Progress "Sinal de cancelamento recebido...")])
  | Some h =>
      (st',
       [Emit (Progress "Sinal de cancelamento recebido...");
        Emit (Progress "Tentando interromper o processo FFmpeg atual...");
        Terminate h]
       ++ match t with
          | Terminated => []
          | TimeoutExpired =>
              [Emit (Progress "FFmpeg não terminou, forçando interrupção (kill)...");
               Kill h]
          | TerminateRaised e =>
              [Emit (Progress ("Erro ao tentar parar o processo: " +:+ e))]
          end)
  end.

(** Line 178. *)
Definition stop_clear (st : RunState) : RunState := set_process None st.

(** [stop_conversions] run without interruption by the worker. *)
Definition stop_conversions (t : TerminateResult) (st : RunState) : RunState * list Action :=
  let '(st', tr) := stop_request t st in (stop_clear st', tr).

(** A [stop_conversions] call that lands, or not, at a point where no
    process is live. *)
Definition maybe_stop (lands : bool) (st : RunState) : RunState * list Action :=
  if lands then stop_conversions Terminated st else (st, []).

(** ** One iteration of the loop (lines 95-156) *)

(** How an iteration ends: [break] (line 98), [return] (line 149) or
    the next iteration. *)
Inductive Step :=
| Break (st : RunState) (tr : list Action)
| Return (st : RunState) (tr : list Action)
| Next (st : RunState) (c : Counters) (tr : list Action).

(** Line 108. *)
Definition converting_message (i total_files : nat) (filename_with_ext : string) : string :=
  "[" +:+ PyStr.of_nat (i + 1) +:+ "/" +:+ PyStr.of_nat total_files +:+
  "] Convertendo: " +:+ filename_with_ext +:+ "...".

Definition interrupted_message (filename_with_ext : string) : string :=
  "Conversão de " +:+ filename_with_ext +:+ " interrompida.".

Definition success_message (output_filename : string) : string :=
  "Sucesso: " +:+ output_filename.

Definition failure_message (filename_with_ext : string) (return_code : Z) : string :=
  "Erro ao converter " +:+ filename_with_ext +:+ " (Status: " +:+
  PyStr.of_Z return_code +:+ ").".

Definition engine_not_found_message : string :=
  "Erro Crítico: 'ffmpeg' não encontrado. Verifique a instalação e o PATH.".

(** Lines 143-144: the bounded excerpt of one stream, when not empty. *)
Definition excerpt (stream_name output : string) : list Action :=
  if PyStr.truthy output then
    [Emit (Progress ("FFmpeg " +:+ stream_name +:+ " (pode ser longo):" +:+ PyStr.nl +:+
                     PyStr.slice_to 1000 output +:+ "..."))]
  else [].

(** Lines 136-144: what is recorded for a process that exited. *)
Definition report_exit (filename_with_ext out_name stdout stderr : string)
    (return_code : Z) (st : RunState) (c : Counters) : Counters * list Action :=
  if negb (is_running st) && negb (return_code =? 0)%Z then
    (c, [Emit (Progress (interrupted_message filename_with_ext))])
  else if (return_code =? 0)%Z then
    ({| files_processed_count := files_processed_count c;
        files_succeeded_count := files_succeeded_count c + 1 |},
     [Emit (Progress (success_message out_name))])
  else
    (c, Emit (Progress (failure_message filename_with_ext return_code))
        :: excerpt "stdout" stdout ++ excerpt "stderr" stderr).

(** Lines 150-154: the handler of [except Exception]. *)
Definition on_exception (filename_with_ext e : string) (st : RunState)
    : RunState * list Action :=
  (set_process None st,
   Emit (Progress ("Exceção durante conversão de " +:+ filename_with_ext +:+ ": " +:+ e))
   :: match current_process st with
      | Some h => [Kill h]
      | None => []
      end).

(** The [AttributeError] of reading an attribute of [None]. *)
Definition none_has_no (attribute : string) : string :=
  "'NoneType' object has no attribute '" +:+ attribute +:+ "'".

(** Lines 128-154 once [Popen] has returned the handle [i]:
    [stdout_stderr_code] is what [communicate()] returns, or [None]
    when it raises [raised].  The result is the state, the counters and
    the actions up to the end of the [try] statement. *)
Definition supervise (filename_with_ext out_name : string) (i : nat) (r : FileRun)
    (stdout_stderr_code : option (string * string * Z)) (raised : string)
    (st : RunState) (c : Counters) : RunState * Counters * list Action :=
  let st := set_process (Some i) st in
  let '(st, tr_stop, cp) :=
    match stop_while_live r with
    | Some ls =>
        let '(st', tr) := stop_request (terminate_result ls) st in
        (st', tr, clear_point ls)
    | None => (st, [], AfterRead)
    end in
  let st := match cp with BeforeCommunicate => stop_clear st | _ => st end in
  match current_process st with
  | None =>
      let '(st, tr) := on_exception filename_with_ext (none_has_no "communicate") st in
      (st, c, tr_stop ++ tr)
  | Some _ =>
      let st := match cp with BeforeRead => stop_clear st | _ => st end in
      match stdout_stderr_code with
      | None =>
          let '(st, tr) := on_exception filename_with_ext raised st in
          (st, c, tr_stop ++ tr)
      | Some (stdout, stderr, return_code) =>
          match current_process st with
          | None =>
              let '(st, tr) :=
                on_exception filename_with_ext (none_has_no "returncode") st in
              (st, c, tr_stop ++ tr)
          | Some _ =>
              let st := set_process None st in
              let '(st, tr_late) := maybe_stop (stop_after_exit r) st in
              let '(c, tr) :=
                report_exit filename_with_ext out_name stdout stderr return_code st c in
              (st, c, tr_stop ++ tr_late ++ tr)
          end
      end
  end.

(** The body of the loop for the file of index [i]. *)
Definition convert_file (w : Worker) (total_files i : nat) (file_path : string)
    (r : FileRun) (st : RunState) (c : Counters) : Step :=
  let '(st, tr_top) := maybe_stop (stop_at_top r) st in
  if negb (is_running st) then
    Break st (tr_top ++ [Emit (Progress "Conversão cancelada pelo usuário.")])
  else
    let c := {| files_processed_count := files_processed_count c + 1;
                files_succeeded_count := files_succeeded_count c |} in
    let filename_with_ext := PosixPath.basename file_path in
    let cfg := ffmpeg_params w in
    let out_name := output_filename cfg file_path in
    let tr_build :=
      Emit (Progress (converting_message i total_files filename_with_ext))
      :: map Emit (snd (rate_control cfg)) in
    let '(st, tr_pre) := maybe_stop (stop_before_launch r) st in
    let tr := tr_top ++ tr_build ++ tr_pre ++ [Popen (ffmpeg_cmd_list w file_path)] in
    let progress := [Emit (OverallProgress (i + 1) total_files)] in
    match launch r with
    | EngineNotFound =>
        Return (set_running false st)
               (tr ++ [Emit (CriticalError engine_not_found_message)])
    | PopenRaised e =>
        let '(st, tr_e) := on_exception filename_with_ext e st in
        Next st c (tr ++ tr_e ++ progress)
    | CommunicateRaised e =>
        let '(st, c, tr_s) := supervise filename_with_ext out_name i r None e st c in
        Next st c (tr ++ tr_s ++ progress)
    | Exited stdout stderr return_code =>
        let '(st, c, tr_s) :=
          supervise filename_with_ext out_name i r
                    (Some (stdout, stderr, return_code)) "" st c in
        Next st c (tr ++ tr_s ++ progress)
    end.

(** ** The loop and the batch (lines 46-162) *)

(** How the loop ends: by [return], or by falling out of it (normally
    or by [break]). *)
Inductive LoopEnd :=
| LoopReturned (st : RunState) (tr : list Action)
| LoopLeft (st : RunState) (c : Counters) (tr : list Action).

Fixpoint conversion_loop (w : Worker) (sched : nat -> FileRun) (total_files i : nat)
    (files : list string) (st : RunState) (c : Counters) : LoopEnd :=
  match files with
  | [] => LoopLeft st c []
  | file_path :: rest =>
      match convert_file w total_files i file_path (sched i) st c with
      | Break st' tr => LoopLeft st' c tr
      | Return st' tr => LoopReturned st' tr
      | Next st' c' tr =>
          match conversion_loop w sched total_files (S i) rest st' c' with
          | LoopReturned st'' tr' => LoopReturned st'' (tr ++ tr')
          | LoopLeft st'' c'' tr' => LoopLeft st'' c'' (tr ++ tr')
          end
      end
  end.

(** Lines 158-161. *)
Definition summary (st : RunState) (c : Counters) (total_files : nat) : string :=
  if is_running st then
    "Conversão concluída. " +:+ PyStr.of_nat (files_succeeded_count c) +:+ "/" +:+
    PyStr.of_nat total_files +:+ " arquivos convertidos com sucesso."
  else
    "Conversão cancelada. " +:+ PyStr.of_nat (files_succeeded_count c) +:+ "/" +:+
    PyStr.of_nat (files_processed_count c) +:+
    " arquivos processados antes do cancelamento.".

(** [os.makedirs(path, exist_ok=True)]: raises the error the
    environment decides, or leaves the directory on disk. *)
Definition makedirs (error : option string) (path : string) (fs : FileSystem)
    : string + FileSystem :=
  match error with
  | Some e => inl e
  | None => inr {| directories := {[ path ]} ∪ directories fs |}
  end.

(** The result of a run: what was done, and the state left behind. *)
Record Run := {
  trace : list Action;
  final_state : RunState;
  final_counters : Counters;
  final_disk : FileSystem
}.

Definition extensions_text (w : Worker) : string :=
  PyStr.join ", " (target_extensions w).

(** Line 47, with the [current_process] left by [__init__]. *)
Definition started : RunState := {| is_running := true; current_process := None |}.

(** Lines 91-92. *)
Definition no_files_yet : Counters :=
  {| files_processed_count := 0; files_succeeded_count := 0 |}.

(** Line 62. *)
Definition searching_message (w : Worker) : string :=
  "Procurando por arquivos com extensões: " +:+ extensions_text w +:+
  " em '" +:+ input_dir w +:+ "'".

(** Lines 62-93 when files were found: what precedes the loop. *)
Definition running_head (w : Worker) (total_files : nat) : list Action :=
  [Emit (Progress (searching_message w));
   ListDir (input_dir w);
   Emit (Progress ("Encontrados " +:+ PyStr.of_nat total_files +:+
                   " arquivo(s) para processar."));
   Emit (OverallProgress 0 total_files)].

(** Lines 158-162: what follows the loop, unless it returned. *)
Definition finish_batch (env : Env) (total_files : nat) (l : LoopEnd)
    : list Action * RunState * Counters :=
  match l with
  | LoopReturned st tr => (tr, st, no_files_yet)
  | LoopLeft st c tr =>
      let '(st', tr_end) := maybe_stop (stop_after_loop env) st in
      (tr ++ tr_end ++ [Emit (Finished (summary st' c total_files))], st', c)
  end.

(** [ConversionWorker.run_conversions]. *)
Definition run_conversions (w : Worker) (env : Env) : Run :=
  match makedirs (makedirs_error env) (output_dir w) (disk env) with
  | inl e =>
      {| trace := [MakeDirs (output_dir w);
                   Emit (CriticalError ("Erro crítico ao criar diretório de saída '" +:+
                                        output_dir w +:+ "': " +:+ e))];
         final_state := started; final_counters := no_files_yet;
         final_disk := disk env |}
  | inr fs =>
      let finish tr st c :=
        {| trace := MakeDirs (output_dir w) :: tr;
           final_state := st; final_counters := c; final_disk := fs |} in
      match target_extensions w with
      | [] =>
          finish [Emit (Progress "Nenhum formato de entrada especificado.");
                  Emit (Finished "Nenhum formato de entrada para procurar.")]
                 started no_files_yet
      | _ :: _ =>
          let searching := Emit (Progress (searching_message w)) in
          match listdir_result env with
          | ListNotFound =>
              finish [searching; ListDir (input_dir w);
                      Emit (CriticalError ("Erro: Diretório de entrada não encontrado: " +:+
                                           input_dir w))] started no_files_yet
          | ListRaised e =>
              finish [searching; ListDir (input_dir w);
                      Emit (CriticalError
                              ("Erro ao listar arquivos no diretório de entrada: " +:+ e))]
                     started no_files_yet
          | Listed all_files_in_dir =>
              let files_to_convert := scan_files w (isfile env) all_files_in_dir in
              match files_to_convert with
              | [] =>
                  finish [searching; ListDir (input_dir w);
                          Emit (Progress
                                  ("Nenhum arquivo com os formatos especificados (" +:+
                                   extensions_text w +:+ ") encontrado em '" +:+
                                   input_dir w +:+ "'."));
                          Emit (Finished "Nenhum arquivo para converter.")]
                         started no_files_yet
              | _ :: _ =>
                  let total_files := length files_to_convert in
                  let '(tr, st, c) :=
                    finish_batch env total_files
                      (conversion_loop w (schedule env) total_files 0
                                       files_to_convert started no_files_yet) in
                  finish (running_head w total_files ++ tr) st c
              end
          end
      end
  end.

(** The signals emitted during a run, in order. *)
Definition events (tr : list Action) : list Event :=
  omap (fun a => match a with Emit e => Some e | _ => None end) tr.

(** The argument vectors of the engine launches of a run, in order. *)
Definition launches (tr : list Action) : list (list string) :=
  omap (fun a => match a with Popen argv => Some argv | _ => None end) tr.

Definition is_overall (e : Event) : option (nat * nat) :=
  match e with OverallProgress d t => Some (d, t) | _ => None end.

Definition is_terminal (e : Event) : bool :=
  match e with Finished _ | CriticalError _ => true | _ => false end.

(** The actions of one iteration. *)
Definition step_trace (s : Step) : list Action :=
  match s with
  | Break _ tr => tr
  | Return _ tr => tr
  | Next _ _ tr => tr
  end.

(** The worker with other encoder settings. *)
Definition with_params (cfg : EncoderConfig) (w : Worker) : Worker := {|
  input_dir := input_dir w;
  output_dir := output_dir w;
  ffmpeg_params := cfg;
  target_extensions := target_extensions w
|}.

(** The settings with the rate control replaced by constant QP 23 and
    preset "quality"; every other field is kept. *)
Definition cqp_fallback (cfg : EncoderConfig) : EncoderConfig := {|
  VIDEO_CODEC_AMF := VIDEO_CODEC_AMF cfg;
  RC_MODE := "cqp";
  QP_VALUE := "23";
  BITRATE_VBR := BITRATE_VBR cfg;
  MAX_BITRATE_VBR := MAX_BITRATE_VBR cfg;
  QUALITY_PRESET := "quality";
  AUDIO_CODEC := AUDIO_CODEC cfg;
  AUDIO_BITRATE := AUDIO_BITRATE cfg
|}.

(** The settings with another rate-control mode. *)
Definition with_mode (mode : string) (cfg : EncoderConfig) : EncoderConfig := {|
  VIDEO_CODEC_AMF := VIDEO_CODEC_AMF cfg;
  RC_MODE := mode;
  QP_VALUE := QP_VALUE cfg;
  BITRATE_VBR := BITRATE_VBR cfg;
  MAX_BITRATE_VBR := MAX_BITRATE_VBR cfg;
  QUALITY_PRESET := QUALITY_PRESET cfg;
  AUDIO_CODEC := AUDIO_CODEC cfg;
  AUDIO_BITRATE := AUDIO_BITRATE cfg
|}.

(** Does [old] occur somewhere in [s]? *)
Fixpoint occurs (old s : string) : bool :=
  String.prefix old s ||
  match s with
  | EmptyString => false
  | String _ s' => occurs old s'
  end.

(** Every [a] of [s] replaced by [b]: the wording of the specification
    for the second step of the short-name derivation. *)
Fixpoint subst_char (a b : ascii) (s : string) : string :=
  match s with
  | EmptyString => EmptyString
  | String c s' => String (if Ascii.eqb c a then b else c) (subst_char a b s')
  end.

(** ** Properties of traces *)

(** No action of [tr] emits [Finished] or [CriticalError]. *)
Definition no_terminal (tr : list Action) : Prop :=
  Forall (λ a, match a with Emit e => is_terminal e = false | _ => True end) tr.

(** The signals of [tr] end with one terminal signal, the only one. *)
Definition terminated_once (tr : list Action) : Prop :=
  ∃ (pre : list Event) (e : Event),
    events tr = pre ++ [e] ∧ is_terminal e = true ∧
    Forall (λ x, is_terminal x = false) pre.

(** The overall-progress signals of [tr], in order. *)
Definition overall_progress (tr : list Action) : list (nat * nat) :=
  omap is_overall (events tr).

(** [tr] launches nothing and emits progress messages only. *)
Definition only_progress (tr : list Action) : Prop :=
  Forall (λ a, match a with
               | Emit (Progress _) | Terminate _ | Kill _ => True
               | _ => False
               end) tr.

(** ** Batches *)

(** The run gets as far as the loop, with [files] to convert. *)
Definition reaches_running (w : Worker) (env : Env) (files : list string) : Prop :=
  makedirs_error env = None ∧ target_extensions w ≠ [] ∧ files ≠ [] ∧
  ∃ names, listdir_result env = Listed names ∧
           scan_files w (isfile env) names = files.

(** No [stop_conversions] call lands during the first [n] iterations
    or after the loop. *)
Definition never_cancelled (env : Env) (n : nat) : Prop :=
  stop_after_loop env = false ∧
  ∀ i, i < n → schedule env i = quiet (launch (schedule env i)).

(** The engine exits with code 0. *)
Definition exit_ok (r : FileRun) : bool :=
  match launch r with
  | Exited _ _ return_code => (return_code =? 0)%Z
  | _ => false
  end.

(** How many of the [n] iterations from [i] on end with exit code 0. *)
Fixpoint count_ok (sched : nat → FileRun) (i n : nat) : nat :=
  match n with
  | 0 => 0
  | S n' => (if exit_ok (sched i) then 1 else 0) + count_ok sched (S i) n'
  end.

(** ** The file scanner in the words of the specification *)



(** Is [c] a capital letter of ASCII? *)
Definition is_upper (c : ascii) : bool :=
  let n := nat_of_ascii c in (65 <=? n)%nat && (n <=? 90)%nat.

(** [s] has no capital letter of ASCII. *)
Fixpoint no_upper (s : string) : bool :=
  match s with
  | EmptyString => true
  | String a s' => negb (is_upper a) && no_upper s'
  end.

(** Are [c] and [d] the same character up to the case of the letters
    of ASCII: equal, or a capital letter and the small letter 32
    places after it? *)
Definition caseless_char_eqb (c d : ascii) : bool :=
  Ascii.eqb c d
  || (is_upper c && (nat_of_ascii d =? nat_of_ascii c + 32)%nat)
  || (is_upper d && (nat_of_ascii c =? nat_of_ascii d + 32)%nat).

(** Are [s] and [t] the same text up to letter case? *)
Fixpoint caseless_eqb (s t : string) : bool :=
  match s, t with
  | EmptyString, EmptyString => true
  | String a s', String b t' => caseless_char_eqb a b && caseless_eqb s' t'
  | _, _ => false
  end.


(** ** Accounting of a run *)

(** [tr] sends no signal to a process. *)
Definition no_signal (tr : list Action) : Prop :=
  Forall (λ a, match a with Terminate _ | Kill _ => False | _ => True end) tr.

(** Every signal of [tr] goes to the process of handle [i]. *)
Definition signals_to (i : nat) (tr : list Action) : Prop :=
  Forall (λ a, match a with Terminate h | Kill h => h = i | _ => True end) tr.

(** After [launched] launches, every signal of [tr] goes to the process
    launched last (handles are launch indices). *)
Fixpoint targets_current (launched : nat) (tr : list Action) : Prop :=
  match tr with
  | [] => True
  | Popen _ :: rest => targets_current (S launched) rest
  | Terminate h :: rest | Kill h :: rest =>
      launched = S h ∧ targets_current launched rest
  | _ :: rest => targets_current launched rest
  end.

(** A [stop_conversions] call lands during the iteration described by
    [r]: the calls scheduled while the engine is live or after its
    exit land only if the engine was started, respectively exited. *)
Definition stop_lands (r : FileRun) : bool :=
  stop_at_top r || stop_before_launch r ||
  match launch r with
  | Exited _ _ _ => bool_decide (is_Some (stop_while_live r)) || stop_after_exit r
  | CommunicateRaised _ => bool_decide (is_Some (stop_while_live r))
  | _ => false
  end.

(** The run ends with the signal [e]. *)
Definition ends_with (e : Event) (tr : list Action) : Prop :=
  ∃ pre, events tr = pre ++ [e].

(** The files the run would convert: the scan of the listing, if the
    directory can be listed. *)
Definition found_files (w : Worker) (env : Env) : list string :=
  match listdir_result env with
  | Listed names => scan_files w (isfile env) names
  | _ => []
  end.

(** ** The front end ([ConverterApp]) *)

(** [c.isspace()] for a character of one byte: tab to carriage
    return, the four separators and the space. *)
Definition isspace (c : ascii) : bool :=
  let n := nat_of_ascii c in
  ((9 <=? n)%nat && (n <=? 13)%nat) || ((28 <=? n)%nat && (n <=? 32)%nat).

(** The white space of two bytes, U+0085 and U+00A0, and of three
    bytes, U+1680, U+2000 to U+200A, U+2028, U+2029, U+202F, U+205F
    and U+3000, by the bytes of their encoding.  There is none of four
    bytes. *)
Definition isspace2 (a b : ascii) : bool :=
  (nat_of_ascii a =? 194)%nat &&
  ((nat_of_ascii b =? 133)%nat || (nat_of_ascii b =? 160)%nat).

Definition isspace3 (a b c : ascii) : bool :=
  let x := nat_of_ascii a in
  let y := nat_of_ascii b in
  let z := nat_of_ascii c in
  ((x =? 225)%nat && (y =? 154)%nat && (z =? 128)%nat) ||
  ((x =? 226)%nat && (y =? 128)%nat &&
   (((128 <=? z)%nat && (z <=? 138)%nat) || (z =? 168)%nat || (z =? 169)%nat ||
    (z =? 175)%nat)) ||
  ((x =? 226)%nat && (y =? 129)%nat && (z =? 159)%nat) ||
  ((x =? 227)%nat && (y =? 128)%nat && (z =? 128)%nat).

(** [s.isascii()]. *)
Fixpoint isascii (s : string) : bool :=
  match s with
  | EmptyString => true
  | String a s' => (nat_of_ascii a <? 128)%nat && isascii s'
  end.

(** [s.lstrip()]: the white space at the start is dropped, character
    by character. *)
Fixpoint lstrip (s : string) : string :=
  match s with
  | EmptyString => EmptyString
  | String a s1 =>
      if isspace a then lstrip s1
      else match s1 with
           | EmptyString => s
           | String b s2 =>
               if isspace2 a b then lstrip s2
               else match s2 with
                    | EmptyString => s
                    | String c s3 => if isspace3 a b c then lstrip s3 else s
                    end
           end
  end.

(** [s.rstrip()]: nothing is left of a text that is white space only;
    any other text keeps its first byte, and the rest is stripped. *)
Fixpoint rstrip (s : string) : string :=
  match s with
  | EmptyString => EmptyString
  | String a s' =>
      match lstrip s with
      | EmptyString => EmptyString
      | String _ _ => String a (rstrip s')
      end
  end.

(** [s.strip()]. *)
Definition strip (s : string) : string := rstrip (lstrip s).

(** [s.lstrip(c)] and [s.rstrip(c)] for a one-character string [c]. *)
Fixpoint lstrip_char (c : ascii) (s : string) : string :=
  match s with
  | EmptyString => EmptyString
  | String a s' => if Ascii.eqb a c then lstrip_char c s' else s
  end.

Fixpoint rstrip_char (c : ascii) (s : string) : string :=
  match s with
  | EmptyString => EmptyString
  | String a s' =>
      match rstrip_char c s' with
      | EmptyString => if Ascii.eqb a c then EmptyString else String a EmptyString
      | t => String a t
      end
  end.

(** [os.path.dirname(p)]. *)
Definition dirname (p : string) : string :=
  match PosixPath.before_last PosixPath.sep p with
  | None => EmptyString
  | Some dir =>
      let head := dir +:+ String PosixPath.sep EmptyString in
      if PosixPath.all_char PosixPath.sep head then head
      else rstrip_char PosixPath.sep head
  end.

(** Line 350: the extensions typed in the formats field. *)
Definition parse_formats (input_formats_str : string) : list string :=
  map (λ ext, lstrip_char "."%char (strip ext))
      (List.filter (λ ext, PyStr.truthy (strip ext))
                   (PyStr.split ","%char input_formats_str)).

(** Which optional fields [update_ffmpeg_options_visibility] shows. *)
Record Visibility := {
  qp_visible : bool;
  bitrate_visible : bool;
  max_bitrate_visible : bool
}.

(** Lines 305-316, as a function of the text of the mode selector. *)
Definition update_ffmpeg_options_visibility (rc_mode : string) : Visibility :=
  let is_cqp := String.eqb rc_mode "cqp" in
  let is_vbr_cbr := String.eqb rc_mode "vbr_peak" || String.eqb rc_mode "cbr" in
  {| qp_visible := is_cqp;
     bitrate_visible := is_vbr_cbr;
     max_bitrate_visible := is_vbr_cbr |}.

(** The settings with another QP value, or other bitrates. *)
Definition with_qp (qp : string) (cfg : EncoderConfig) : EncoderConfig := {|
  VIDEO_CODEC_AMF := VIDEO_CODEC_AMF cfg;
  RC_MODE := RC_MODE cfg;
  QP_VALUE := qp;
  BITRATE_VBR := BITRATE_VBR cfg;
  MAX_BITRATE_VBR := MAX_BITRATE_VBR cfg;
  QUALITY_PRESET := QUALITY_PRESET cfg;
  AUDIO_CODEC := AUDIO_CODEC cfg;
  AUDIO_BITRATE := AUDIO_BITRATE cfg
|}.

Definition with_bitrates (bitrate max_bitrate : string) (cfg : EncoderConfig)
    : EncoderConfig := {|
  VIDEO_CODEC_AMF := VIDEO_CODEC_AMF cfg;
  RC_MODE := RC_MODE cfg;
  QP_VALUE := QP_VALUE cfg;
  BITRATE_VBR := bitrate;
  MAX_BITRATE_VBR := max_bitrate;
  QUALITY_PRESET := QUALITY_PRESET cfg;
  AUDIO_CODEC := AUDIO_CODEC cfg;
  AUDIO_BITRATE := AUDIO_BITRATE cfg
|}.

(** What the window remembers and what its fields hold: the two
    folders, the text of the formats field, and the texts of the eight
    setting widgets. *)
Record Form := {
  input_dir_path : string;
  output_dir_path : string;
  input_formats_text : string;
  form_params : EncoderConfig
}.

(** What a slot of the window does, in order. *)
Inductive UiAction :=
| ShowWarning (message : string)
| SetInputText (text : string)
| SetOutputText (text : string)
| AppendLog (message : string)
| EnableStart (enabled : bool)
| EnableCancel (enabled : bool)
| SetBarValue (value : nat)
| SetBarMaximum (maximum : nat)
| StartWorker (w : Worker).

Definition default_output_name : string := "convertidos_pyqt_universal".

Definition set_input (folder : string) (f : Form) : Form := {|
  input_dir_path := folder;
  output_dir_path := output_dir_path f;
  input_formats_text := input_formats_text f;
  form_params := form_params f
|}.

Definition set_output (folder : string) (f : Form) : Form := {|
  input_dir_path := input_dir_path f;
  output_dir_path := folder;
  input_formats_text := input_formats_text f;
  form_params := form_params f
|}.

(** [select_input_folder] (lines 319-328); [folder] is what the dialog
    returns, empty when it is cancelled. *)
Definition select_input_folder (folder : string) (f : Form) : Form * list UiAction :=
  if PyStr.truthy folder then
    let f1 := set_input folder f in
    let tr := [SetInputText folder;
               AppendLog ("Pasta de entrada selecionada: " +:+ folder)] in
    if negb (PyStr.truthy (output_dir_path f1)) ||
       String.eqb (output_dir_path f1)
                  (PosixPath.join (dirname (input_dir_path f1)) default_output_name)
    then
      let suggested_output := PosixPath.join folder default_output_name in
      (set_output suggested_output f1, tr ++ [SetOutputText suggested_output])
    else (f1, tr)
  else (f, []).

(** [select_output_folder] (lines 330-335). *)
Definition select_output_folder (folder : string) (f : Form) : Form * list UiAction :=
  if PyStr.truthy folder then
    (set_output folder f,
     [SetOutputText folder; AppendLog ("Pasta de saída selecionada: " +:+ folder)])
  else (f, []).

(** Lines 367-369: one log line per setting, in the order of the
    dictionary. *)
Definition config_log_lines (cfg : EncoderConfig) : list string :=
  ["  VIDEO_CODEC_AMF: " +:+ VIDEO_CODEC_AMF cfg;
   "  RC_MODE: " +:+ RC_MODE cfg;
   "  QP_VALUE: " +:+ QP_VALUE cfg;
   "  BITRATE_VBR: " +:+ BITRATE_VBR cfg;
   "  MAX_BITRATE_VBR: " +:+ MAX_BITRATE_VBR cfg;
   "  QUALITY_PRESET: " +:+ QUALITY_PRESET cfg;
   "  AUDIO_CODEC: " +:+ AUDIO_CODEC cfg;
   "  AUDIO_BITRATE: " +:+ AUDIO_BITRATE cfg].

Definition no_input_warning : string := "Por favor, selecione uma pasta de entrada.".
Definition no_output_warning : string := "Por favor, selecione uma pasta de saída.".
Definition no_format_warning : string :=
  "Por favor, especifique pelo menos um formato de arquivo de entrada.".

(** [start_conversion_process] (lines 337-390): the new state of the
    window and what the slot does; [StartWorker] stands for moving the
    new worker to its thread and starting it. *)
Definition start_conversion_process (f : Form) : Form * list UiAction :=
  if negb (PyStr.truthy (input_dir_path f)) then (f, [ShowWarning no_input_warning])
  else
    let checked : option (Form * list UiAction) :=
      if negb (PyStr.truthy (output_dir_path f)) then
        if PyStr.truthy (input_dir_path f) then
          let out := PosixPath.join (input_dir_path f) default_output_name in
          Some (set_output out f, [SetOutputText out])
        else None
      else Some (f, []) in
    match checked with
    | None => (f, [ShowWarning no_output_warning])
    | Some (f1, tr1) =>
        let target_extensions := parse_formats (input_formats_text f1) in
        match target_extensions with
        | [] => (f1, tr1 ++ [ShowWarning no_format_warning])
        | _ :: _ =>
            let current_ffmpeg_params := form_params f1 in
            (f1,
             tr1 ++
             [AppendLog ("Iniciando processo de conversão para formatos: " +:+
                         PyStr.join ", " target_extensions);
              AppendLog "Com as seguintes configurações FFmpeg:"] ++
             map AppendLog (config_log_lines current_ffmpeg_params) ++
             [EnableStart false; EnableCancel true; SetBarValue 0; SetBarMaximum 0;
              StartWorker (new_worker (input_dir_path f1) (output_dir_path f1)
                                      current_ffmpeg_params target_extensions)])
        end
    end.

(** The folder a conversion started from [f] writes to: the chosen
    one, or the default below the input folder. *)
Definition effective_output (f : Form) : string :=
  if PyStr.truthy (output_dir_path f) then output_dir_path f
  else PosixPath.join (input_dir_path f) default_output_name.

(** An extension as a user would type it cleanly: not empty, without
    comma, without space at either end, not starting with a dot, in
    ASCII. *)
Definition clean_extension (e : string) : Prop :=
  e ≠ "" ∧ PyStr.contains_char ","%char e = false ∧ strip e = e ∧
  lstrip_char "."%char e = e ∧ isascii e = true.

(** ** Sample inputs *)

(** The settings of the front end with its second codec. *)
Definition hevc_config : EncoderConfig := {|
  VIDEO_CODEC_AMF := "hevc_amf";
  RC_MODE := "cqp";
  QP_VALUE := "23";
  BITRATE_VBR := "5M";
  MAX_BITRATE_VBR := "8M";
  QUALITY_PRESET := "quality";
  AUDIO_CODEC := "aac";
  AUDIO_BITRATE := "192k"
|}.

(** A worker as the front end builds it from its default fields. *)
Definition sample_worker : Worker :=
  new_worker "/in" "/out" DEFAULT_FFMPEG_CONFIG ["mp4"; "mkv"].

(** The same worker in peak-constrained VBR mode, and in a mode the
    worker does not know. *)
Definition vbr_worker : Worker :=
  with_params (with_mode "vbr_peak" DEFAULT_FFMPEG_CONFIG) sample_worker.

Definition cbr_worker : Worker :=
  with_params (with_mode "cbr" DEFAULT_FFMPEG_CONFIG) sample_worker.

(** The window after an input folder was typed in, with the formats
    written loosely and no output folder chosen. *)
Definition sample_form : Form := {|
  input_dir_path := "/in";
  output_dir_path := "";
  input_formats_text := "mp4, .MKV";
  form_params := DEFAULT_FFMPEG_CONFIG
|}.

(** The same window with a formats field that holds a single dot. *)
Definition dot_form : Form := {|
  input_dir_path := "/in";
  output_dir_path := "";
  input_formats_text := ".";
  form_params := DEFAULT_FFMPEG_CONFIG
|}.

(** Three files, the second of which fails with exit code 1; nobody
    cancels. *)
Definition three_files_env : Env := {|
  makedirs_error := None;
  listdir_result := Listed ["c.mp4"; "a.mp4"; "b.mkv"];
  isfile := λ _, true;
  disk := {| directories := ∅ |};
  schedule := λ i, quiet (if (i =? 1)%nat then Exited "" "boom" 1 else Exited "" "" 0);
  stop_after_loop := false
|}.

(** The same three files where the engine is not installed. *)
Definition no_engine_env : Env := {|
  makedirs_error := None;
  listdir_result := Listed ["c.mp4"; "a.mp4"; "b.mkv"];
  isfile := λ _, true;
  disk := {| directories := ∅ |};
  schedule := λ _, quiet EngineNotFound;
  stop_after_loop := false
|}.

(** What the scan finds in these listings. *)
Definition three_files : list string := ["/in/a.mp4"; "/in/b.mkv"; "/in/c.mp4"].

(** One file; [stop_conversions] lands while the engine is live, the
    worker reads the exit code before the handle is cleared, and the
    engine exits with [return_code]. *)
Definition live_stop (return_code : Z) : FileRun := {|
  stop_at_top := false;
  stop_before_launch := false;
  launch := Exited "" "" return_code;
  stop_while_live := Some {| terminate_result := Terminated; clear_point := AfterRead |};
  stop_after_exit := false
|}.

Definition cancel_live_env (return_code : Z) : Env := {|
  makedirs_error := None;
  listdir_result := Listed ["a.mp4"];
  isfile := λ _, true;
  disk := {| directories := ∅ |};
  schedule := λ _, live_stop return_code;
  stop_after_loop := false
|}.

(** Three files; [stop_conversions] lands before the first iteration,
    or while the engine of the second file is live (it then exits with
    the code of a terminated process). *)
Definition cancel_first_env : Env := {|
  makedirs_error := None;
  listdir_result := Listed ["c.mp4"; "a.mp4"; "b.mkv"];
  isfile := λ _, true;
  disk := {| directories := ∅ |};
  schedule := λ _, {| stop_at_top := true; stop_before_launch := false;
                      launch := Exited "" "" 0; stop_while_live := None;
                      stop_after_exit := false |};
  stop_after_loop := false
|}.

Definition cancel_second_env : Env := {|
  makedirs_error := None;
  listdir_result := Listed ["c.mp4"; "a.mp4"; "b.mkv"];
  isfile := λ _, true;
  disk := {| directories := ∅ |};
  schedule := λ i, if (i =? 1)%nat then live_stop (-15) else quiet (Exited "" "" 0);
  stop_after_loop := false
|}.

(** A worker without extensions. *)
Definition idle_worker : Worker := new_worker "/in" "/out" DEFAULT_FFMPEG_CONFIG [].

(** * Properties *)

(** ** Strings *)

Section StringFacts.

Lemma str_app_nil_r (s : string) : s +:+ "" = s.
Proof. induction s as [|a s IH]; [done|]. unfold String.app in *. simpl. by rewrite IH. Qed.

Lemma str_app_assoc (s t u : string) : (s +:+ t) +:+ u = s +:+ t +:+ u.
Proof.
  induction s as [|a s IH]; [done|].
  unfold String.app in *. simpl. by rewrite IH.
Qed.

Lemma str_app_cons (a : ascii) (s t : string) : String a s +:+ t = String a (s +:+ t).
Proof. done. Qed.

Lemma str_app_nil_l (s : string) : "" +:+ s = s.
Proof. done. Qed.

End StringFacts.

(** Traces are compared after re-association to the right. *)
Ltac norm_trace := repeat (simpl; rewrite <- ?List.app_assoc); try reflexivity.

(** ** Command construction *)

Section Command.

Variable w : Worker.
Variable file_path : string.

Let cfg := ffmpeg_params w.

Lemma mode_eqb_neq (mode other : string) : mode ≠ other → String.eqb mode other = false.
Proof. intros H. by apply String.eqb_neq. Qed.

(** The argument vector in constant-QP mode. *)
Lemma cmd_list_cqp :
  RC_MODE cfg = "cqp" →
  ffmpeg_cmd_list w file_path =
    ["ffmpeg"; "-i"; file_path; "-c:v"; VIDEO_CODEC_AMF cfg; "-rc"; "cqp";
     "-qp"; QP_VALUE cfg; "-quality"; QUALITY_PRESET cfg;
     "-c:a"; AUDIO_CODEC cfg; "-b:a"; AUDIO_BITRATE cfg;
     "-movflags"; "+faststart"; "-y"; output_file_path w file_path].
Proof.
  intros Hmode. unfold ffmpeg_cmd_list, ffmpeg_cmd_args, rate_control.
  fold cfg. rewrite Hmode. reflexivity.
Qed.

(** The argument vector in peak-constrained VBR mode. *)
Lemma cmd_list_vbr_peak :
  RC_MODE cfg = "vbr_peak" →
  ffmpeg_cmd_list w file_path =
    ["ffmpeg"; "-i"; file_path; "-c:v"; VIDEO_CODEC_AMF cfg; "-rc"; "vbr_peak";
     "-b:v"; BITRATE_VBR cfg; "-maxrate"; MAX_BITRATE_VBR cfg;
     "-quality"; QUALITY_PRESET cfg;
     "-c:a"; AUDIO_CODEC cfg; "-b:a"; AUDIO_BITRATE cfg;
     "-movflags"; "+faststart"; "-y"; output_file_path w file_path].
Proof.
  intros Hmode. unfold ffmpeg_cmd_list, ffmpeg_cmd_args, rate_control.
  fold cfg. rewrite Hmode. reflexivity.
Qed.

(** The rate-control part in any other mode. *)
Lemma rate_control_fallback :
  RC_MODE cfg ≠ "cqp" → RC_MODE cfg ≠ "vbr_peak" →
  rate_control cfg =
    ([Flag "-c:v"; Value (VIDEO_CODEC_AMF cfg); Flag "-rc"; Value "cqp";
      Flag "-qp"; Value "23"; Flag "-quality"; Value "quality"],
     [Progress (fallback_notice cfg)]).
Proof.
  intros H1 H2. unfold rate_control.
  by rewrite (mode_eqb_neq _ _ H1), (mode_eqb_neq _ _ H2).
Qed.

End Command.

Ltac flag_in := repeat first [ by apply list_elem_of_here | apply list_elem_of_further ].
Ltac flag_out :=
  let H := fresh in
  intros H; repeat (apply elem_of_cons in H as [H|H]; [discriminate H|]);
  by apply elem_of_nil in H.

(** C5. In mode [cqp] the argument vector has the options [-qp] and
    [-quality] (followed by the configured QP value and preset) and
    neither [-b:v] nor [-maxrate]; in mode [vbr_peak] it has [-b:v]
    and [-maxrate] (followed by the configured bitrates) and no [-qp]. *)
Theorem rate_control_flags (w : Worker) (file_path : string) :
  let cfg := ffmpeg_params w in
  let args := ffmpeg_cmd_args w file_path in
  (RC_MODE cfg = "cqp" →
     (Flag "-qp" ∈ args) ∧ (Flag "-quality" ∈ args) ∧
     (Flag "-b:v" ∉ args) ∧ (Flag "-maxrate" ∉ args) ∧
     ffmpeg_cmd_list w file_path =
       ["ffmpeg"; "-i"; file_path; "-c:v"; VIDEO_CODEC_AMF cfg; "-rc"; "cqp";
        "-qp"; QP_VALUE cfg; "-quality"; QUALITY_PRESET cfg;
        "-c:a"; AUDIO_CODEC cfg; "-b:a"; AUDIO_BITRATE cfg;
        "-movflags"; "+faststart"; "-y"; output_file_path w file_path]) ∧
  (RC_MODE cfg = "vbr_peak" →
     (Flag "-b:v" ∈ args) ∧ (Flag "-maxrate" ∈ args) ∧ (Flag "-qp" ∉ args) ∧
     ffmpeg_cmd_list w file_path =
       ["ffmpeg"; "-i"; file_path; "-c:v"; VIDEO_CODEC_AMF cfg; "-rc"; "vbr_peak";
        "-b:v"; BITRATE_VBR cfg; "-maxrate"; MAX_BITRATE_VBR cfg;
        "-quality"; QUALITY_PRESET cfg;
        "-c:a"; AUDIO_CODEC cfg; "-b:a"; AUDIO_BITRATE cfg;
        "-movflags"; "+faststart"; "-y"; output_file_path w file_path]).
Proof.
  intros cfg args. split; intros Hmode.
  - assert (Hargs : args =
        [Value "ffmpeg"; Flag "-i"; Value file_path; Flag "-c:v";
         Value (VIDEO_CODEC_AMF cfg); Flag "-rc"; Value "cqp"; Flag "-qp";
         Value (QP_VALUE cfg); Flag "-quality"; Value (QUALITY_PRESET cfg);
         Flag "-c:a"; Value (AUDIO_CODEC cfg); Flag "-b:a"; Value (AUDIO_BITRATE cfg);
         Flag "-movflags"; Value "+faststart"; Flag "-y";
         Value (output_file_path w file_path)]).
    { unfold args, ffmpeg_cmd_args, rate_control. fold cfg. by rewrite Hmode. }
    rewrite Hargs. repeat split; [flag_in | flag_in | flag_out | flag_out |].
    by apply cmd_list_cqp.
  - assert (Hargs : args =
        [Value "ffmpeg"; Flag "-i"; Value file_path; Flag "-c:v";
         Value (VIDEO_CODEC_AMF cfg); Flag "-rc"; Value "vbr_peak"; Flag "-b:v";
         Value (BITRATE_VBR cfg); Flag "-maxrate"; Value (MAX_BITRATE_VBR cfg);
         Flag "-quality"; Value (QUALITY_PRESET cfg);
         Flag "-c:a"; Value (AUDIO_CODEC cfg); Flag "-b:a"; Value (AUDIO_BITRATE cfg);
         Flag "-movflags"; Value "+faststart"; Flag "-y";
         Value (output_file_path w file_path)]).
    { unfold args, ffmpeg_cmd_args, rate_control. fold cfg. by rewrite Hmode. }
    rewrite Hargs. repeat split; [flag_in | flag_in | flag_out |].
    by apply cmd_list_vbr_peak.
Qed.

Lemma rate_control_flags_witness :
  ((Flag "-qp" ∈ ffmpeg_cmd_args sample_worker "/in/a.mp4") ∧
   (Flag "-b:v" ∉ ffmpeg_cmd_args sample_worker "/in/a.mp4")) ∧
  ((Flag "-maxrate" ∈ ffmpeg_cmd_args vbr_worker "/in/a.mp4") ∧
   (Flag "-qp" ∉ ffmpeg_cmd_args vbr_worker "/in/a.mp4")).
Proof.
  split.
  - destruct (proj1 (rate_control_flags sample_worker "/in/a.mp4") eq_refl)
      as (Hqp & _ & Hbv & _). exact (conj Hqp Hbv).
  - destruct (proj2 (rate_control_flags vbr_worker "/in/a.mp4") eq_refl)
      as (_ & Hmax & Hqp & _). exact (conj Hmax Hqp).
Defined.

(** C4. With a rate-control mode other than [cqp] and [vbr_peak] the
    argument vector is the one built for the same settings with mode
    [cqp], QP 23 and preset "quality", and every iteration that
    reaches the launch emits the fallback notice before it. *)
Theorem unknown_mode_fallback (w : Worker) (file_path : string) :
  let cfg := ffmpeg_params w in
  let w' := with_params (cqp_fallback cfg) w in
  RC_MODE cfg ≠ "cqp" → RC_MODE cfg ≠ "vbr_peak" →
  ffmpeg_cmd_list w file_path = ffmpeg_cmd_list w' file_path ∧
  snd (rate_control cfg) = [Progress (fallback_notice cfg)] ∧
  snd (rate_control (cqp_fallback cfg)) = [] ∧
  ∀ total_files i r st c,
    match convert_file w total_files i file_path r st c with
    | Break _ _ => True
    | s => ∃ pre mid post,
        step_trace s =
          pre ++ Emit (Progress (fallback_notice cfg)) :: mid
              ++ Popen (ffmpeg_cmd_list w' file_path) :: post
    end.
Proof.
  intros cfg w' H1 H2.
  assert (Hcmd : ffmpeg_cmd_list w file_path = ffmpeg_cmd_list w' file_path).
  { unfold ffmpeg_cmd_list, ffmpeg_cmd_args.
    rewrite (rate_control_fallback w H1 H2). reflexivity. }
  assert (Hnote : snd (rate_control cfg) = [Progress (fallback_notice cfg)]).
  { unfold cfg. by rewrite (rate_control_fallback w H1 H2). }
  split; [exact Hcmd|]. split; [exact Hnote|]. split; [reflexivity|].
  intros total_files i r st c. unfold convert_file.
  change (ffmpeg_params w) with cfg. rewrite Hnote, <- Hcmd.
  destruct (maybe_stop (stop_at_top r) st) as [st1 tr1].
  destruct (is_running st1); cbn [negb]; [|done].
  destruct (maybe_stop (stop_before_launch r) st1) as [st2 tr2].
  set (conv := Emit (Progress (converting_message i total_files (PosixPath.basename file_path)))).
  destruct (launch r) as [|e|e|out err rc].
  - exists (tr1 ++ [conv]), tr2, [Emit (CriticalError engine_not_found_message)].
    norm_trace.
  - destruct (on_exception (PosixPath.basename file_path) e st2) as [st3 tr3].
    exists (tr1 ++ [conv]), tr2, (tr3 ++ [Emit (OverallProgress (i + 1) total_files)]).
    norm_trace.
  - destruct (supervise _ _ i r None e st2 _) as [[st3 c3] tr3].
    exists (tr1 ++ [conv]), tr2, (tr3 ++ [Emit (OverallProgress (i + 1) total_files)]).
    norm_trace.
  - destruct (supervise _ _ i r _ _ st2 _) as [[st3 c3] tr3].
    exists (tr1 ++ [conv]), tr2, (tr3 ++ [Emit (OverallProgress (i + 1) total_files)]).
    norm_trace.
Qed.

Lemma unknown_mode_fallback_witness :
  ffmpeg_cmd_list cbr_worker "/in/a.mp4" =
    ffmpeg_cmd_list (with_params (cqp_fallback (ffmpeg_params cbr_worker)) cbr_worker)
                    "/in/a.mp4" ∧
  snd (rate_control (ffmpeg_params cbr_worker)) =
    [Progress (fallback_notice (ffmpeg_params cbr_worker))].
Proof.
  assert (H1 : RC_MODE (ffmpeg_params cbr_worker) ≠ "cqp") by discriminate.
  assert (H2 : RC_MODE (ffmpeg_params cbr_worker) ≠ "vbr_peak") by discriminate.
  destruct (unknown_mode_fallback cbr_worker "/in/a.mp4" H1 H2) as (Hcmd & Hnote & _).
  exact (conj Hcmd Hnote).
Defined.

(** ** Paths and names *)

Section Names.

Import PyStr PosixPath.

Lemma contains_char_app (c : ascii) (s t : string) :
  contains_char c (s +:+ t) = contains_char c s || contains_char c t.
Proof.
  induction s as [|a s IH]; [done|].
  rewrite str_app_cons. simpl. by destruct (Ascii.eqb a c).
Qed.

Lemma after_last_absent (c : ascii) (s : string) :
  contains_char c s = false → after_last c s = None.
Proof.
  induction s as [|a s IH]; [done|]. simpl.
  destruct (Ascii.eqb a c); [done|]. intros H. by rewrite IH.
Qed.

Lemma before_last_absent (c : ascii) (s : string) :
  contains_char c s = false → before_last c s = None.
Proof.
  induction s as [|a s IH]; [done|]. simpl.
  destruct (Ascii.eqb a c); [done|]. intros H. by rewrite IH.
Qed.

Lemma after_last_app (c : ascii) (pre t : string) :
  contains_char c t = false → after_last c (pre +:+ String c t) = Some t.
Proof.
  intros Ht. induction pre as [|a pre IH].
  - rewrite str_app_nil_l. simpl.
    by rewrite (after_last_absent _ _ Ht), Ascii.eqb_refl.
  - rewrite str_app_cons. simpl. by rewrite IH.
Qed.

Lemma before_last_app (c : ascii) (pre t : string) :
  contains_char c t = false → before_last c (pre +:+ String c t) = Some pre.
Proof.
  intros Ht. induction pre as [|a pre IH].
  - rewrite str_app_nil_l. simpl.
    by rewrite (before_last_absent _ _ Ht), Ascii.eqb_refl.
  - rewrite str_app_cons. simpl. by rewrite IH.
Qed.

(** The base name of a path is what follows its last separator. *)
Lemma basename_app (dir name : string) :
  contains_char sep name = false → basename (dir +:+ String sep name) = name.
Proof. intros H. unfold basename. by rewrite after_last_app. Qed.

(** A name [stem.ext] splits into [stem] and [.ext]. *)
Lemma splitext_stem (stem ext : string) :
  contains_char sep stem = false → contains_char sep ext = false →
  contains_char extsep ext = false → all_char extsep stem = false →
  splitext (stem +:+ String extsep ext) = (stem, String extsep ext).
Proof.
  intros Hs He Hd Hstem. unfold splitext.
  rewrite before_last_absent.
  - unfold splitext_name. by rewrite before_last_app, after_last_app, Hstem.
  - rewrite contains_char_app. simpl. by rewrite Hs, He.
Qed.

(** The source base name of [dir/stem.ext] is [stem]. *)
Lemma filename_no_ext_stem (dir stem ext : string) :
  contains_char sep stem = false → contains_char sep ext = false →
  contains_char extsep ext = false → all_char extsep stem = false →
  filename_no_ext (dir +:+ String sep (stem +:+ String extsep ext)) = stem.
Proof.
  intros Hs He Hd Hstem. unfold filename_no_ext.
  rewrite basename_app.
  - by rewrite splitext_stem.
  - rewrite contains_char_app. simpl. by rewrite Hs, He.
Qed.

Lemma prefix_nil (s : string) : String.prefix "" s = true.
Proof. by destruct s. Qed.

(** Replacing a one-character string by another is a character map. *)
Lemma replace_char (a b : ascii) (s : string) :
  replace (String a "") (String b "") s = subst_char a b s.
Proof.
  unfold replace. induction s as [|c s IH]; [done|].
  cbn [replace_go subst_char String.prefix String.length Nat.sub].
  destruct (ascii_dec a c) as [<-|Hne].
  - rewrite prefix_nil, Ascii.eqb_refl, IH. done.
  - assert (Ascii.eqb c a = false) as -> by (apply Ascii.eqb_neq; congruence).
    by rewrite IH.
Qed.

(** The first four characters of [s ++ "_am"] and of [s ++ "_amf"]
    agree when [s] is not empty. *)
Lemma prefix_amf_tail (a : ascii) (s : string) :
  String.prefix "_amf" (String a (s +:+ "_amf")) =
  String.prefix "_amf" (String a (s +:+ "_am")).
Proof.
  destruct s as [|b [|c [|d s]]]; rewrite ?str_app_cons, ?str_app_nil_l;
    cbn [String.prefix]; repeat (destruct (ascii_dec _ _); [|done]);
    by rewrite ?prefix_nil.
Qed.

(** Removing [_amf] strips the suffix when it occurs nowhere else. *)
Lemma replace_amf_suffix (stem : string) :
  occurs "_amf" (stem +:+ "_am") = false →
  replace "_amf" "" (stem +:+ "_amf") = stem.
Proof.
  unfold replace. induction stem as [|a stem IH]; [done|].
  rewrite !str_app_cons. cbn [occurs]. intros [Hp Ho]%orb_false_elim.
  cbn [replace_go]. rewrite prefix_amf_tail, Hp. by rewrite IH.
Qed.

End Names.


(** ** Output names *)

(** C8. The output file name is the source base name, the marker
    [_jellyfin_], the codec short name and [_gpu.mp4], whatever the
    extension of the source; [h264_amf] gives [x264]; the name is what
    the command ends with, and it depends on the source base name and
    the codec identifier only. *)
Theorem output_filename_shape (w : Worker) (file_path : string) :
  let cfg := ffmpeg_params w in
  output_filename cfg file_path =
    filename_no_ext file_path +:+ "_jellyfin_" +:+
    codec_short_name (VIDEO_CODEC_AMF cfg) +:+ "_gpu.mp4" ∧
  List.last (ffmpeg_cmd_list w file_path) "" =
    PosixPath.join (output_dir w) (output_filename cfg file_path) ∧
  codec_short_name "h264_amf" = "x264" ∧
  (∀ dir stem ext : string,
     PyStr.contains_char PosixPath.sep stem = false →
     PyStr.contains_char PosixPath.sep ext = false →
     PyStr.contains_char PosixPath.extsep ext = false →
     PosixPath.all_char PosixPath.extsep stem = false →
     output_filename cfg (dir +:+ "/" +:+ stem +:+ "." +:+ ext) =
       stem +:+ "_jellyfin_" +:+ codec_short_name (VIDEO_CODEC_AMF cfg) +:+ "_gpu.mp4") ∧
  (∀ (cfg' : EncoderConfig) (file_path' : string),
     filename_no_ext file_path' = filename_no_ext file_path →
     VIDEO_CODEC_AMF cfg' = VIDEO_CODEC_AMF cfg →
     output_filename cfg' file_path' = output_filename cfg file_path).
Proof.
  intros cfg. repeat split.
  - unfold ffmpeg_cmd_list, ffmpeg_cmd_args, rate_control, output_file_path.
    fold cfg. by destruct (String.eqb (RC_MODE cfg) "cqp"),
                          (String.eqb (RC_MODE cfg) "vbr_peak").
  - intros dir stem ext Hs He Hd Hstem. unfold output_filename.
    change (dir +:+ "/" +:+ stem +:+ "." +:+ ext)
      with (dir +:+ String PosixPath.sep (stem +:+ String PosixPath.extsep ext)).
    by rewrite filename_no_ext_stem.
  - intros cfg' file_path' Hname Hcodec. unfold output_filename.
    by rewrite Hname, Hcodec.
Qed.

Lemma output_filename_shape_witness :
  output_filename DEFAULT_FFMPEG_CONFIG "/in/movie.mkv" = "movie_jellyfin_x264_gpu.mp4" ∧
  output_filename hevc_config "/in/movie.mkv" = "movie_jellyfin_xevc_gpu.mp4" ∧
  output_filename DEFAULT_FFMPEG_CONFIG "/other/movie.avi" =
    output_filename DEFAULT_FFMPEG_CONFIG "/in/movie.mkv".
Proof.
  split; [|split].
  - exact (proj1 (proj2 (proj2 (proj2 (output_filename_shape sample_worker "/in/a.mp4"))))
             "/in" "movie" "mkv" eq_refl eq_refl eq_refl eq_refl).
  - exact (proj1 (proj2 (proj2 (proj2
             (output_filename_shape (with_params hevc_config sample_worker) "/in/a.mp4"))))
             "/in" "movie" "mkv" eq_refl eq_refl eq_refl eq_refl).
  - exact (proj2 (proj2 (proj2 (proj2 (output_filename_shape sample_worker "/in/movie.mkv"))))
             DEFAULT_FFMPEG_CONFIG "/other/movie.avi" eq_refl eq_refl).
Defined.

(** C10. The short name is the codec identifier with [_amf] removed
    and then every [h] replaced by [x]: for an identifier that carries
    [_amf] as its suffix only, the suffix is stripped; [hevc_amf]
    gives [xevc] and the output name [<base>_jellyfin_xevc_gpu.mp4]. *)
Theorem hevc_short_name :
  (∀ codec : string,
     codec_short_name codec =
       subst_char "h" "x" (PyStr.replace "_amf" "" codec)) ∧
  (∀ stem : string,
     occurs "_amf" (stem +:+ "_am") = false →
     codec_short_name (stem +:+ "_amf") = subst_char "h" "x" stem) ∧
  codec_short_name "hevc_amf" = "xevc" ∧
  (∀ (cfg : EncoderConfig) (file_path : string),
     VIDEO_CODEC_AMF cfg = "hevc_amf" →
     output_filename cfg file_path =
       filename_no_ext file_path +:+ "_jellyfin_xevc_gpu.mp4").
Proof.
  repeat split.
  - intros codec. apply replace_char.
  - intros stem H. unfold codec_short_name.
    by rewrite replace_amf_suffix, replace_char.
  - intros cfg file_path H. unfold output_filename. by rewrite H.
Qed.

Lemma hevc_short_name_witness :
  codec_short_name ("hevc" +:+ "_amf") = "xevc" ∧
  output_filename hevc_config "/in/movie.mkv" =
    filename_no_ext "/in/movie.mkv" +:+ "_jellyfin_xevc_gpu.mp4".
Proof.
  split.
  - exact (proj1 (proj2 hevc_short_name) "hevc" eq_refl).
  - exact (proj2 (proj2 (proj2 hevc_short_name)) hevc_config "/in/movie.mkv" eq_refl).
Defined.


(** ** File discovery *)

Section Scanner.

Import PyStr.

Lemma split_absent (c : ascii) (s : string) :
  contains_char c s = false → split c s = [s].
Proof.
  induction s as [|a s IH]; [done|]. simpl.
  destruct (Ascii.eqb a c); [done|]. intros H. by rewrite IH.
Qed.

Lemma split_not_nil (c : ascii) (s : string) : split c s ≠ [].
Proof.
  induction s as [|a s IH]; [done|]. simpl.
  destruct (Ascii.eqb a c); [done|]. by destruct (split c s).
Qed.



Lemma after_last_present (c : ascii) (s : string) :
  contains_char c s = true → is_Some (PosixPath.after_last c s).
Proof.
  induction s as [|a s IH]; [done|]. simpl.
  destruct (contains_char c s) eqn:Hc.
  - intros _. destruct (IH eq_refl) as [t ->]. by exists t.
  - rewrite (after_last_absent _ _ Hc).
    destruct (Ascii.eqb a c); [by exists s|done].
Qed.


(** A text with a separator is cut at its last one. *)
Lemma cut_at_last (c : ascii) (s : string) :
  contains_char c s = true →
  ∃ pre ext, s = pre +:+ String c ext ∧ contains_char c ext = false.
Proof.
  induction s as [|a s IH]; [done|]. simpl.
  destruct (contains_char c s) eqn:Hc.
  - intros _. destruct (IH eq_refl) as (pre & ext & -> & Hext).
    by exists (String a pre), ext.
  - destruct (Ascii.eqb_spec a c) as [->|]; [|done].
    intros _. by exists "", s.
Qed.

Lemma lower_truthy (s : string) : truthy s = true → lower s ≠ "".
Proof. by destruct s. Qed.

(** The extensions kept by the constructor are not empty. *)
Lemma target_extensions_not_empty (input_dir output_dir : string) (cfg : EncoderConfig)
    (raw : list string) :
  "" ∉ target_extensions (new_worker input_dir output_dir cfg raw).
Proof.
  simpl. intros (s & Hs & Hin)%list_elem_of_fmap.
  apply list_elem_of_In, List.filter_In in Hin as [_ Ht].
  by apply (lower_truthy s).
Qed.


End Scanner.

Section ScanResult.

Variable w : Worker.
Variable isfile : string → bool.





End ScanResult.

Section Caseless.

Import PyStr.

Lemma is_upper_lower_char (c : ascii) : is_upper (lower_char c) = false.
Proof. by destruct c as [[] [] [] [] [] [] [] []]. Qed.

Lemma caseless_char_lower (c : ascii) : caseless_char_eqb c (lower_char c) = true.
Proof. by destruct c as [[] [] [] [] [] [] [] []]. Qed.

Lemma lower_char_small (c : ascii) : is_upper c = false → lower_char c = c.
Proof. unfold is_upper, lower_char. by intros ->. Qed.

(** A capital letter and the character 32 places after it have the
    same lower case. *)
Lemma lower_char_capital (c d : ascii) :
  is_upper c = true → nat_of_ascii d = nat_of_ascii c + 32 →
  lower_char c = lower_char d.
Proof.
  intros Hup Hd. rewrite (lower_char_small d).
  - unfold lower_char. unfold is_upper in Hup. rewrite Hup, <- Hd.
    apply ascii_nat_embedding.
  - unfold is_upper in *. rewrite Hd.
    apply andb_prop in Hup as [H1%Nat.leb_le H2%Nat.leb_le].
    apply andb_false_iff. right. apply Nat.leb_gt. lia.
Qed.

Lemma caseless_char_lower_eq (c d : ascii) :
  caseless_char_eqb c d = true → lower_char c = lower_char d.
Proof.
  unfold caseless_char_eqb. intros [[H|H]%orb_prop|H]%orb_prop.
  - by apply Ascii.eqb_eq in H as ->.
  - apply andb_prop in H as [Hup Hd%Nat.eqb_eq]. by apply lower_char_capital.
  - apply andb_prop in H as [Hup Hc%Nat.eqb_eq]. symmetry. by apply lower_char_capital.
Qed.

Lemma caseless_lower (s : string) : caseless_eqb s (lower s) = true.
Proof. induction s as [|a s IH]; [done|]. cbn. by rewrite caseless_char_lower, IH. Qed.

Lemma caseless_lower_eq (s t : string) : caseless_eqb s t = true → lower s = lower t.
Proof.
  revert t. induction s as [|a s IH]; intros [|b t]; cbn; try done.
  intros [Hab Hst]%andb_prop. by rewrite (caseless_char_lower_eq _ _ Hab), (IH _ Hst).
Qed.

Lemma no_upper_lower (s : string) : no_upper (lower s) = true.
Proof. induction s as [|a s IH]; [done|]. cbn. by rewrite is_upper_lower_char, IH. Qed.

Lemma lower_no_upper (s : string) : no_upper s = true → lower s = s.
Proof.
  induction s as [|a s IH]; [done|]. cbn. intros [Ha Hs]%andb_prop.
  apply negb_true_iff in Ha. by rewrite (lower_char_small _ Ha), (IH Hs).
Qed.

(** The lower case of [s] is the one text without capital letter that
    equals [s] up to letter case. *)
Lemma lower_spec (s e : string) :
  lower s = e ↔ caseless_eqb s e = true ∧ no_upper e = true.
Proof.
  split.
  - intros <-. split; [apply caseless_lower|apply no_upper_lower].
  - intros [Hse He]. by rewrite (caseless_lower_eq _ _ Hse), lower_no_upper.
Qed.

Lemma caseless_truthy (s t : string) : caseless_eqb s t = true → truthy s = truthy t.
Proof. by destruct s, t. Qed.


End Caseless.



(** The scenario of the specification: [a.mp4], [b.MKV] and [c.txt]
    with the extensions mp4 and mkv. *)
Example scan_scenario :
  scan_files sample_worker (λ _, true) ["c.txt"; "b.MKV"; "a.mp4"] =
    ["/in/a.mp4"; "/in/b.MKV"].
Proof. vm_compute. reflexivity. Qed.


(** ** The event stream *)

Section Stream.

Lemma events_app (tr tr' : list Action) : events (tr ++ tr') = events tr ++ events tr'.
Proof. apply omap_app. Qed.

Lemma launches_app (tr tr' : list Action) :
  launches (tr ++ tr') = launches tr ++ launches tr'.
Proof. apply omap_app. Qed.

Lemma no_terminal_app (tr tr' : list Action) :
  no_terminal tr → no_terminal tr' → no_terminal (tr ++ tr').
Proof. intros H H'. apply Forall_app. by split. Qed.

Lemma no_terminal_events (tr : list Action) :
  no_terminal tr → Forall (λ x, is_terminal x = false) (events tr).
Proof.
  induction 1 as [|a tr Ha _ IH]; [constructor|].
  destruct a; simpl; try exact IH. by constructor.
Qed.

End Stream.

Ltac quiet :=
  repeat first
    [ assumption
    | apply Forall_nil_2
    | apply no_terminal_app
    | apply Forall_cons_2; [done|] ].

Section Stream_steps.

Lemma stop_request_quiet (t : TerminateResult) (st : RunState) :
  no_terminal (stop_request t st).2.
Proof. unfold stop_request. destruct (current_process st), t; simpl; quiet. Qed.

Lemma stop_conversions_quiet (t : TerminateResult) (st : RunState) :
  no_terminal (stop_conversions t st).2.
Proof.
  unfold stop_conversions. pose proof (stop_request_quiet t st).
  by destruct (stop_request t st).
Qed.

Lemma maybe_stop_quiet (lands : bool) (st : RunState) :
  no_terminal (maybe_stop lands st).2.
Proof.
  destruct lands; simpl; [apply stop_conversions_quiet|quiet].
Qed.

Lemma on_exception_quiet (name e : string) (st : RunState) :
  no_terminal (on_exception name e st).2.
Proof. unfold on_exception. destruct (current_process st); simpl; quiet. Qed.

Lemma excerpt_quiet (stream output : string) : no_terminal (excerpt stream output).
Proof. unfold excerpt. destruct (PyStr.truthy output); quiet. Qed.

Lemma report_exit_quiet (name out_name stdout stderr : string) (rc : Z)
    (st : RunState) (c : Counters) :
  no_terminal (report_exit name out_name stdout stderr rc st c).2.
Proof.
  unfold report_exit.
  destruct (negb (is_running st) && negb (rc =? 0)%Z); simpl; [quiet|].
  destruct (rc =? 0)%Z; simpl; [quiet|].
  apply Forall_cons_2; [done|]. apply no_terminal_app; apply excerpt_quiet.
Qed.

Lemma supervise_quiet (name out_name : string) (i : nat) (r : FileRun)
    (res : option (string * string * Z)) (raised : string)
    (st : RunState) (c : Counters) :
  no_terminal (supervise name out_name i r res raised st c).2.
Proof.
  unfold supervise.
  set (st0 := set_process (Some i) st).
  assert (Hstop : ∃ st1 tr1 cp, no_terminal tr1 ∧
            match stop_while_live r with
            | Some ls =>
                let '(st', tr) := stop_request (terminate_result ls) st0 in
                (st', tr, clear_point ls)
            | None => (st0, [], AfterRead)
            end = (st1, tr1, cp)).
  { destruct (stop_while_live r) as [ls|].
    - pose proof (stop_request_quiet (terminate_result ls) st0) as Hq.
      destruct (stop_request (terminate_result ls) st0) as [st1 tr1].
      by exists st1, tr1, (clear_point ls).
    - exists st0, [], AfterRead. split; [quiet|done]. }
  destruct Hstop as (st1 & tr1 & cp & Hq1 & ->).
  set (st2 := match cp with BeforeCommunicate => stop_clear st1 | _ => st1 end).
  destruct (current_process st2).
  - set (st3 := match cp with BeforeRead => stop_clear st2 | _ => st2 end).
    destruct res as [[[stdout stderr] rc]|].
    + destruct (current_process st3).
      * pose proof (maybe_stop_quiet (stop_after_exit r) (set_process None st3)) as Hq2.
        destruct (maybe_stop (stop_after_exit r) (set_process None st3)) as [st4 tr4].
        pose proof (report_exit_quiet name out_name stdout stderr rc st4 c) as Hq3.
        destruct (report_exit name out_name stdout stderr rc st4 c) as [c5 tr5].
        simpl in *. quiet.
      * pose proof (on_exception_quiet name (none_has_no "returncode") st3) as Hq2.
        destruct (on_exception name (none_has_no "returncode") st3) as [st4 tr4].
        simpl in *. quiet.
    + pose proof (on_exception_quiet name raised st3) as Hq2.
      destruct (on_exception name raised st3) as [st4 tr4]. simpl in *. quiet.
  - pose proof (on_exception_quiet name (none_has_no "communicate") st2) as Hq2.
    destruct (on_exception name (none_has_no "communicate") st2) as [st4 tr4].
    simpl in *. quiet.
Qed.

End Stream_steps.

Section Stream_run.

Variable w : Worker.

Lemma rate_control_quiet (cfg : EncoderConfig) :
  no_terminal (map Emit (rate_control cfg).2).
Proof.
  unfold rate_control.
  destruct (String.eqb (RC_MODE cfg) "cqp"), (String.eqb (RC_MODE cfg) "vbr_peak");
    simpl; quiet.
Qed.

(** An iteration emits no terminal signal, except the critical error
    that ends an iteration left by [return]. *)
Lemma convert_file_stream (total_files i : nat) (file_path : string) (r : FileRun)
    (st : RunState) (c : Counters) :
  match convert_file w total_files i file_path r st c with
  | Break _ tr | Next _ _ tr => no_terminal tr
  | Return _ tr =>
      ∃ pre, tr = pre ++ [Emit (CriticalError engine_not_found_message)] ∧
             no_terminal pre
  end.
Proof.
  unfold convert_file.
  pose proof (maybe_stop_quiet (stop_at_top r) st) as Hq1.
  destruct (maybe_stop (stop_at_top r) st) as [st1 tr1].
  destruct (is_running st1); cbn [negb]; [|simpl in *; quiet].
  pose proof (maybe_stop_quiet (stop_before_launch r) st1) as Hq2.
  destruct (maybe_stop (stop_before_launch r) st1) as [st2 tr2].
  pose proof (rate_control_quiet (ffmpeg_params w)) as Hq3.
  set (name := PosixPath.basename file_path).
  set (out_name := output_filename (ffmpeg_params w) file_path).
  set (c1 := {| files_processed_count := files_processed_count c + 1;
                files_succeeded_count := files_succeeded_count c |}).
  destruct (launch r) as [|e|e|stdout stderr rc].
  - eexists. split; [reflexivity|]. simpl in *. quiet.
  - pose proof (on_exception_quiet name e st2) as Hq4.
    destruct (on_exception name e st2) as [st3 tr3]. simpl in *. quiet.
  - pose proof (supervise_quiet name out_name i r None e st2 c1) as Hq4.
    destruct (supervise name out_name i r None e st2 c1) as [[st3 c3] tr3].
    simpl in *. quiet.
  - pose proof (supervise_quiet name out_name i r (Some (stdout, stderr, rc)) "" st2 c1)
      as Hq4.
    destruct (supervise name out_name i r (Some (stdout, stderr, rc)) "" st2 c1)
      as [[st3 c3] tr3].
    simpl in *. quiet.
Qed.

(** The same for the whole loop. *)
Lemma conversion_loop_stream (sched : nat → FileRun) (total_files : nat)
    (files : list string) :
  ∀ (i : nat) (st : RunState) (c : Counters),
    match conversion_loop w sched total_files i files st c with
    | LoopLeft _ _ tr => no_terminal tr
    | LoopReturned _ tr =>
        ∃ pre, tr = pre ++ [Emit (CriticalError engine_not_found_message)] ∧
               no_terminal pre
    end.
Proof.
  induction files as [|f files IH]; intros i st c; simpl; [quiet|].
  pose proof (convert_file_stream total_files i f (sched i) st c) as Hstep.
  destruct (convert_file w total_files i f (sched i) st c) as [st' tr|st' tr|st' c' tr];
    [exact Hstep|exact Hstep|].
  specialize (IH (S i) st' c').
  destruct (conversion_loop w sched total_files (S i) files st' c')
    as [st'' tr'|st'' c'' tr'].
  - destruct IH as (pre & -> & Hpre). exists (tr ++ pre).
    split; [by rewrite <- List.app_assoc|quiet].
  - quiet.
Qed.

Lemma terminated_once_snoc (tr : list Action) (e : Event) :
  no_terminal tr → is_terminal e = true → terminated_once (tr ++ [Emit e]).
Proof.
  intros Hq He. exists (events tr), e.
  split; [by rewrite events_app|]. split; [done|]. by apply no_terminal_events.
Qed.

End Stream_run.

(** C7. Whatever the request, the environment and the cancellation
    calls, the signals of a run end with exactly one [Finished] or
    [CriticalError], and no other signal of the run is one of them. *)
Theorem one_terminal_event (w : Worker) (env : Env) :
  terminated_once (trace (run_conversions w env)).
Proof.
  unfold run_conversions.
  destruct (makedirs (makedirs_error env) (output_dir w) (disk env)) as [e|fs]; simpl.
  { apply (terminated_once_snoc [MakeDirs (output_dir w)]); [quiet|done]. }
  destruct (target_extensions w) as [|ext exts] eqn:Hexts; simpl.
  { apply (terminated_once_snoc [MakeDirs _; Emit (Progress _)]); [quiet|done]. }
  clear Hexts ext exts.
  destruct (listdir_result env) as [names| |e]; simpl.
  - destruct (scan_files w (isfile env) names) as [|f files] eqn:Hscan.
    { apply (terminated_once_snoc
               [MakeDirs _; Emit (Progress _); ListDir _; Emit (Progress _)]);
        [quiet|done]. }
    rewrite <- Hscan. clear Hscan f files.
    set (files_to_convert := scan_files w (isfile env) names).
    pose proof (conversion_loop_stream w (schedule env) (length files_to_convert)
                  files_to_convert 0 started no_files_yet) as Hloop.
    destruct (conversion_loop w (schedule env) (length files_to_convert) 0
                files_to_convert started no_files_yet) as [st' tr|st' c tr]; simpl.
    + destruct Hloop as (pre & -> & Hpre).
      match goal with |- terminated_once (?a :: ?b :: ?c :: ?d :: ?e :: pre ++ ?l) =>
        apply (terminated_once_snoc (a :: b :: c :: d :: e :: pre)) end; [quiet|done].
    + pose proof (maybe_stop_quiet (stop_after_loop env) st') as Hend.
      destruct (maybe_stop (stop_after_loop env) st') as [st'' tr_end]; simpl in *.
      match goal with
      | |- terminated_once (?a :: ?b :: ?c :: ?d :: ?e :: tr ++ tr_end ++ ?l) =>
          replace (a :: b :: c :: d :: e :: tr ++ tr_end ++ l)
            with ((a :: b :: c :: d :: e :: tr ++ tr_end) ++ l)
            by (by rewrite <- ?List.app_comm_cons, <- List.app_assoc)
      end.
      apply terminated_once_snoc; [quiet|done].
  - apply (terminated_once_snoc [MakeDirs _; Emit (Progress _); ListDir _]);
      [quiet|done].
  - apply (terminated_once_snoc [MakeDirs _; Emit (Progress _); ListDir _]);
      [quiet|done].
Qed.


(** ** Batches that run *)

Section Running.

Variable w : Worker.

Lemma overall_progress_app (tr tr' : list Action) :
  overall_progress (tr ++ tr') = overall_progress tr ++ overall_progress tr'.
Proof. unfold overall_progress. by rewrite events_app, omap_app. Qed.

Lemma only_progress_app (tr tr' : list Action) :
  only_progress tr → only_progress tr' → only_progress (tr ++ tr').
Proof. intros H H'. apply Forall_app. by split. Qed.

Lemma only_progress_silent (tr : list Action) :
  only_progress tr → overall_progress tr = [] ∧ launches tr = [].
Proof.
  induction 1 as [|a tr Ha _ [IH1 IH2]]; [done|].
  by destruct a as [[]| | | | |].
Qed.

Lemma notices_only_progress (cfg : EncoderConfig) :
  only_progress (map Emit (rate_control cfg).2).
Proof.
  unfold rate_control.
  destruct (String.eqb (RC_MODE cfg) "cqp"), (String.eqb (RC_MODE cfg) "vbr_peak");
    simpl; repeat constructor.
Qed.

Lemma excerpt_only_progress (stream output : string) :
  only_progress (excerpt stream output).
Proof. unfold excerpt. destruct (PyStr.truthy output); repeat constructor. Qed.

Lemma report_exit_only_progress (name out_name stdout stderr : string) (rc : Z)
    (st : RunState) (c : Counters) :
  only_progress (report_exit name out_name stdout stderr rc st c).2.
Proof.
  unfold report_exit.
  destruct (negb (is_running st) && negb (rc =? 0)%Z); simpl; [repeat constructor|].
  destruct (rc =? 0)%Z; simpl; [repeat constructor|].
  constructor; [done|]. apply only_progress_app; apply excerpt_only_progress.
Qed.

Lemma stop_request_only_progress (t : TerminateResult) (st : RunState) :
  only_progress (stop_request t st).2.
Proof. unfold stop_request. destruct (current_process st), t; repeat constructor. Qed.

Lemma maybe_stop_only_progress (lands : bool) (st : RunState) :
  only_progress (maybe_stop lands st).2.
Proof.
  destruct lands; simpl; [|constructor]. unfold stop_conversions.
  pose proof (stop_request_only_progress Terminated st).
  by destruct (stop_request Terminated st).
Qed.

(** An iteration that nobody cancels and whose engine is found: one
    launch, one overall-progress signal, one more processed file, and
    one more succeeded file when the exit code is 0. *)
Lemma convert_file_quiet (total_files i : nat) (file_path : string)
    (l : LaunchResult) (c : Counters) :
  l ≠ EngineNotFound →
  ∃ c' tr,
    convert_file w total_files i file_path (quiet l) started c = Next started c' tr ∧
    overall_progress tr = [(S i, total_files)] ∧
    launches tr = [ffmpeg_cmd_list w file_path] ∧
    files_processed_count c' = files_processed_count c + 1 ∧
    files_succeeded_count c' =
      files_succeeded_count c + (if exit_ok (quiet l) then 1 else 0).
Proof.
  intros Hl. unfold convert_file. cbn [quiet stop_at_top stop_before_launch maybe_stop
    started is_running negb launch].
  pose proof (only_progress_silent _ (notices_only_progress (ffmpeg_params w)))
    as [Hn1 Hn2].
  destruct l as [|e|e|stdout stderr rc]; [done|..].
  - eexists _, _. split; [reflexivity|].
    rewrite !overall_progress_app, !launches_app.
    unfold overall_progress, launches, events in *. cbn. rewrite Hn1, Hn2. cbn.
    rewrite Nat.add_1_r, Nat.add_0_r. done.
  - eexists _, _. split; [reflexivity|].
    rewrite !overall_progress_app, !launches_app.
    unfold overall_progress, launches, events in *. cbn. rewrite Hn1, Hn2. cbn.
    rewrite Nat.add_1_r, Nat.add_0_r. done.
  - unfold supervise. cbn [quiet stop_while_live stop_after_exit maybe_stop
      set_process current_process is_running exit_ok launch].
    pose proof (only_progress_silent _
      (report_exit_only_progress (PosixPath.basename file_path)
         (output_filename (ffmpeg_params w) file_path) stdout stderr rc started
         {| files_processed_count := files_processed_count c + 1;
            files_succeeded_count := files_succeeded_count c |})) as [Hr1 Hr2].
    assert (Hcount : files_processed_count
              (report_exit (PosixPath.basename file_path)
                 (output_filename (ffmpeg_params w) file_path) stdout stderr rc started
                 {| files_processed_count := files_processed_count c + 1;
                    files_succeeded_count := files_succeeded_count c |}).1 =
              files_processed_count c + 1 ∧
            files_succeeded_count
              (report_exit (PosixPath.basename file_path)
                 (output_filename (ffmpeg_params w) file_path) stdout stderr rc started
                 {| files_processed_count := files_processed_count c + 1;
                    files_succeeded_count := files_succeeded_count c |}).1 =
              files_succeeded_count c + (if (rc =? 0)%Z then 1 else 0)).
    { unfold report_exit. cbn [started is_running negb andb].
      destruct (rc =? 0)%Z; cbn; split; lia. }
    change (set_process None (set_process (Some i) started)) with started.
    destruct (report_exit _ _ stdout stderr rc started _) as [c' tr'].
    cbn [fst snd] in *. destruct Hcount as [Hp Hs].
    eexists _, _. split; [reflexivity|].
    rewrite !overall_progress_app, !launches_app.
    unfold overall_progress, launches, events in *. cbn. rewrite Hn1, Hn2, Hr1, Hr2. cbn.
    rewrite Nat.add_1_r. done.
Qed.

End Running.

Section Running_loop.

Variable w : Worker.
Variable sched : nat → FileRun.
Variable total_files : nat.

(** A loop that nobody cancels and whose engine is always found runs
    every file and leaves normally. *)
Lemma conversion_loop_quiet (files : list string) :
  ∀ (i : nat) (c : Counters),
    (∀ j, j < length files →
          sched (i + j) = quiet (launch (sched (i + j))) ∧
          launch (sched (i + j)) ≠ EngineNotFound) →
    ∃ c' tr,
      conversion_loop w sched total_files i files started c = LoopLeft started c' tr ∧
      overall_progress tr = map (λ k, (k, total_files)) (seq (S i) (length files)) ∧
      launches tr = map (ffmpeg_cmd_list w) files ∧
      files_processed_count c' = files_processed_count c + length files ∧
      files_succeeded_count c' =
        files_succeeded_count c + count_ok sched i (length files).
Proof.
  induction files as [|f files IH]; intros i c Hq.
  - exists c, []. simpl. repeat split; lia.
  - destruct (Hq 0 ltac:(simpl; lia)) as [Hrun Hfound].
    rewrite Nat.add_0_r in Hrun, Hfound.
    destruct (convert_file_quiet w total_files i f _ c Hfound)
      as (c1 & tr1 & Hstep & Ho1 & Hl1 & Hp1 & Hs1).
    destruct (IH (S i) c1) as (c2 & tr2 & Hloop & Ho2 & Hl2 & Hp2 & Hs2).
    { intros j Hj. replace (S i + j) with (i + S j) by lia.
      apply Hq. simpl. lia. }
    exists c2, (tr1 ++ tr2). cbn [conversion_loop].
    rewrite Hrun, Hstep, Hloop. split; [done|].
    rewrite overall_progress_app, launches_app, Ho1, Ho2, Hl1, Hl2.
    rewrite <- Hrun in Hs1. cbn [length count_ok seq map].
    repeat split; [lia|lia].
Qed.

(** When the engine is missing at the iteration of index [i + k], the
    [k] before it being uncancelled, the loop returns there: the
    launches are those of the first [k + 1] files. *)
Lemma conversion_loop_engine_missing (k : nat) :
  ∀ (files : list string) (i : nat) (c : Counters),
    k < length files →
    (∀ j, j < k →
          sched (i + j) = quiet (launch (sched (i + j))) ∧
          launch (sched (i + j)) ≠ EngineNotFound) →
    stop_at_top (sched (i + k)) = false →
    launch (sched (i + k)) = EngineNotFound →
    ∃ st' tr,
      conversion_loop w sched total_files i files started c = LoopReturned st' tr ∧
      is_running st' = false ∧
      launches tr = map (ffmpeg_cmd_list w) (take (S k) files).
Proof.
  induction k as [|k IH]; intros files i c Hk Hq Htop Hmiss.
  - destruct files as [|f files]; [simpl in Hk; lia|].
    rewrite Nat.add_0_r in Htop, Hmiss.
    cbn [conversion_loop]. unfold convert_file. rewrite Htop, Hmiss.
    cbn [maybe_stop started is_running negb].
    pose proof (only_progress_silent _ (notices_only_progress (ffmpeg_params w)))
      as [_ Hn].
    pose proof (only_progress_silent _
      (maybe_stop_only_progress (stop_before_launch (sched i)) started)) as [_ Hpre].
    destruct (maybe_stop (stop_before_launch (sched i)) started) as [st2 tr2].
    eexists _, _. split; [reflexivity|]. split; [done|].
    rewrite !launches_app. cbn [fst snd] in Hpre.
    unfold launches in *. cbn. rewrite Hn, Hpre. by rewrite take_0.
  - destruct files as [|f files]; [simpl in Hk; lia|].
    destruct (Hq 0 ltac:(lia)) as [Hrun Hfound].
    rewrite Nat.add_0_r in Hrun, Hfound.
    destruct (convert_file_quiet w total_files i f _ c Hfound)
      as (c1 & tr1 & Hstep & _ & Hl1 & _).
    destruct (IH files (S i) c1) as (st' & tr & Hloop & Hst & Hl).
    + simpl in Hk. lia.
    + intros j Hj. replace (S i + j) with (i + S j) by lia. apply Hq. lia.
    + by replace (S i + k) with (i + S k) by lia.
    + by replace (S i + k) with (i + S k) by lia.
    + exists st', (tr1 ++ tr). cbn [conversion_loop].
      rewrite Hrun, Hstep, Hloop. split; [done|]. split; [done|].
      by rewrite launches_app, Hl1, Hl.
Qed.

End Running_loop.

Section Running_batch.

Variable w : Worker.
Variable env : Env.
Variable files : list string.
Hypothesis Hrunning : reaches_running w env files.

(** The trace of a run that gets as far as the loop. *)
Lemma run_conversions_running :
  trace (run_conversions w env) =
    MakeDirs (output_dir w) :: running_head w (length files) ++
    (finish_batch env (length files)
       (conversion_loop w (schedule env) (length files) 0 files
                        started no_files_yet)).1.1.
Proof.
  destruct Hrunning as (Hmk & Hexts & Hfiles & names & Hlist & Hscan).
  unfold run_conversions. rewrite Hmk. cbn [makedirs].
  destruct (target_extensions w) as [|ext exts]; [done|].
  rewrite Hlist. cbn zeta. rewrite Hscan.
  destruct files as [|f fs] eqn:Hf; [done|]. rewrite <- Hf.
  by destruct (finish_batch _ _ _) as [[tr st] c].
Qed.

Lemma run_conversions_final_state :
  final_state (run_conversions w env) =
    (finish_batch env (length files)
       (conversion_loop w (schedule env) (length files) 0 files
                        started no_files_yet)).1.2.
Proof.
  destruct Hrunning as (Hmk & Hexts & Hfiles & names & Hlist & Hscan).
  unfold run_conversions. rewrite Hmk. cbn [makedirs].
  destruct (target_extensions w) as [|ext exts]; [done|].
  rewrite Hlist. cbn zeta. rewrite Hscan.
  destruct files as [|f fs] eqn:Hf; [done|]. rewrite <- Hf.
  by destruct (finish_batch _ _ _) as [[tr st] c].
Qed.

End Running_batch.


(** ** Progress of a batch *)

(** C2, as stated, fails: the three-file batch whose second file exits
    with code 1 emits four overall-progress signals, the first being
    [(0,3)] (line 93). *)
Lemma overall_progress_counterexample :
  overall_progress (trace (run_conversions sample_worker three_files_env)) =
    [(0, 3); (1, 3); (2, 3); (3, 3)] ∧
  overall_progress (trace (run_conversions sample_worker three_files_env)) ≠
    [(1, 3); (2, 3); (3, 3)].
Proof. split; [by vm_compute|]. vm_compute. discriminate. Qed.

(** C2, amended. A batch of [N] files that nobody cancels and whose
    engine is found emits [(0,N)] before the loop and then one
    overall-progress signal per file, whatever the outcome of each
    file, and its summary counts the files whose engine exited with
    code 0. *)
Theorem overall_progress_per_file (w : Worker) (env : Env) (files : list string) :
  reaches_running w env files →
  never_cancelled env (length files) →
  (∀ i, i < length files → launch (schedule env i) ≠ EngineNotFound) →
  overall_progress (trace (run_conversions w env)) =
    map (λ k, (k, length files)) (seq 0 (S (length files))) ∧
  ∃ pre,
    events (trace (run_conversions w env)) =
      pre ++ [Finished ("Conversão concluída. " +:+
                        PyStr.of_nat (count_ok (schedule env) 0 (length files)) +:+ "/" +:+
                        PyStr.of_nat (length files) +:+
                        " arquivos convertidos com sucesso.")].
Proof.
  intros Hrun [Hend Hquiet] Hfound.
  rewrite (run_conversions_running w env files Hrun).
  destruct (conversion_loop_quiet w (schedule env) (length files) files 0 no_files_yet)
    as (c' & tr & Hloop & Ho & _ & _ & Hs).
  { intros j Hj. split; [by apply Hquiet|by apply Hfound]. }
  rewrite Hloop. unfold finish_batch. rewrite Hend.
  cbn [maybe_stop fst snd summary started is_running]. rewrite Hs. split.
  - change (MakeDirs (output_dir w) :: running_head w (length files) ++
            tr ++ [] ++ [Emit (Finished _)])
      with ([MakeDirs (output_dir w)] ++ running_head w (length files) ++
            tr ++ [] ++ [Emit (Finished
              ("Conversão concluída. " +:+
               PyStr.of_nat (files_succeeded_count no_files_yet +
                             count_ok (schedule env) 0 (length files)) +:+ "/" +:+
               PyStr.of_nat (length files) +:+ " arquivos convertidos com sucesso."))]).
    rewrite !overall_progress_app, Ho. cbn. by rewrite !List.app_nil_r.
  - exists (events (MakeDirs (output_dir w) :: running_head w (length files) ++ tr)).
    rewrite List.app_comm_cons, List.app_assoc, events_app. reflexivity.
Qed.

Lemma overall_progress_per_file_witness :
  overall_progress (trace (run_conversions sample_worker three_files_env)) =
    [(0, 3); (1, 3); (2, 3); (3, 3)] ∧
  ∃ pre,
    events (trace (run_conversions sample_worker three_files_env)) =
      pre ++ [Finished "Conversão concluída. 2/3 arquivos convertidos com sucesso."].
Proof.
  apply (overall_progress_per_file sample_worker three_files_env three_files).
  - split; [reflexivity|]. split; [discriminate|]. split; [discriminate|].
    exists ["c.mp4"; "a.mp4"; "b.mkv"]. split; [reflexivity|]. vm_compute. reflexivity.
  - split; [reflexivity|]. intros i _. reflexivity.
  - intros i _. simpl. destruct (i =? 1)%nat; discriminate.
Defined.

(** ** Fatal errors *)

(** C6. When the engine cannot be found at the launch for the file of
    index [k] (the iterations before it ran uncancelled with the
    engine found, and nobody cancelled before the test of line 96),
    the run stops there: its signals end with the one critical error,
    which names the missing engine, no [Finished] is emitted, no
    later file is launched, and the run flag is cleared. *)
Theorem engine_not_found_aborts (w : Worker) (env : Env) (files : list string) (k : nat) :
  reaches_running w env files →
  k < length files →
  (∀ j, j < k → schedule env j = quiet (launch (schedule env j)) ∧
                launch (schedule env j) ≠ EngineNotFound) →
  stop_at_top (schedule env k) = false →
  launch (schedule env k) = EngineNotFound →
  (∃ pre, events (trace (run_conversions w env)) =
            pre ++ [CriticalError engine_not_found_message] ∧
          Forall (λ e, is_terminal e = false) pre) ∧
  launches (trace (run_conversions w env)) =
    map (ffmpeg_cmd_list w) (take (S k) files) ∧
  is_running (final_state (run_conversions w env)) = false ∧
  ∃ before after,
    engine_not_found_message = before +:+ "'ffmpeg' não encontrado" +:+ after.
Proof.
  intros Hrun Hk Hq Htop Hmiss.
  rewrite (run_conversions_running w env files Hrun),
          (run_conversions_final_state w env files Hrun).
  destruct (conversion_loop_engine_missing w (schedule env) (length files) k files 0
              no_files_yet Hk Hq Htop Hmiss) as (st' & tr & Hloop & Hst & Hl).
  pose proof (conversion_loop_stream w (schedule env) (length files) files 0
                started no_files_yet) as Hstream.
  rewrite Hloop in *. destruct Hstream as (pre & -> & Hpre).
  cbn [finish_batch fst snd]. split; [|split; [|split]].
  - exists (events (MakeDirs (output_dir w) :: running_head w (length files) ++ pre)).
    split.
    + by rewrite List.app_comm_cons, List.app_assoc, events_app.
    + apply no_terminal_events. unfold running_head. quiet.
  - change (MakeDirs (output_dir w) :: running_head w (length files) ++
            pre ++ [Emit (CriticalError engine_not_found_message)])
      with ([MakeDirs (output_dir w)] ++ running_head w (length files) ++
            pre ++ [Emit (CriticalError engine_not_found_message)]).
    by rewrite !launches_app, <- launches_app, Hl.
  - exact Hst.
  - by exists "Erro Crítico: ", ". Verifique a instalação e o PATH.".
Qed.

Lemma engine_not_found_aborts_witness :
  (∃ pre, events (trace (run_conversions sample_worker no_engine_env)) =
            pre ++ [CriticalError engine_not_found_message] ∧
          Forall (λ e, is_terminal e = false) pre) ∧
  launches (trace (run_conversions sample_worker no_engine_env)) =
    [ffmpeg_cmd_list sample_worker "/in/a.mp4"].
Proof.
  destruct (engine_not_found_aborts sample_worker no_engine_env three_files 0)
    as (Hev & Hl & _).
  - split; [reflexivity|]. split; [discriminate|]. split; [discriminate|].
    exists ["c.mp4"; "a.mp4"; "b.mkv"]. split; [reflexivity|]. vm_compute. reflexivity.
  - simpl. lia.
  - intros j Hj. lia.
  - reflexivity.
  - reflexivity.
  - exact (conj Hev Hl).
Defined.

(** C9. The first action of every run is the creation of the output
    directory: when it fails the run ends there, whatever the
    extensions; when it succeeds the directory is on disk after the
    run, also when the run ends with one of the two nothing-to-do
    [Finished] signals, without any launch. *)
Theorem output_dir_created_first (w : Worker) (env : Env) :
  (∃ rest, trace (run_conversions w env) = MakeDirs (output_dir w) :: rest) ∧
  (∀ e, makedirs_error env = Some e →
        ∃ message, trace (run_conversions w env) =
                     [MakeDirs (output_dir w); Emit (CriticalError message)]) ∧
  (makedirs_error env = None →
     output_dir w ∈ directories (final_disk (run_conversions w env)) ∧
     (target_extensions w = [] →
        trace (run_conversions w env) =
          [MakeDirs (output_dir w);
           Emit (Progress "Nenhum formato de entrada especificado.");
           Emit (Finished "Nenhum formato de entrada para procurar.")]) ∧
     (∀ names, target_extensions w ≠ [] →
        listdir_result env = Listed names →
        scan_files w (isfile env) names = [] →
        ∃ message,
          trace (run_conversions w env) =
            [MakeDirs (output_dir w);
             Emit (Progress (searching_message w));
             ListDir (input_dir w);
             Emit (Progress message);
             Emit (Finished "Nenhum arquivo para converter.")])).
Proof.
  split; [|split].
  - unfold run_conversions.
    destruct (makedirs _ _ _); [by eexists|].
    destruct (target_extensions w); [by eexists|].
    destruct (listdir_result env); [|by eexists..].
    destruct (scan_files _ _ _); [by eexists|].
    destruct (finish_batch _ _ _) as [[tr st] c]. by eexists.
  - intros e He. unfold run_conversions. rewrite He. by eexists.
  - intros Hmk. unfold run_conversions. rewrite Hmk. cbn [makedirs]. split; [|split].
    + destruct (target_extensions w); [set_solver|].
      destruct (listdir_result env); [|set_solver..].
      destruct (scan_files _ _ _); [set_solver|].
      destruct (finish_batch _ _ _) as [[tr st] c]. set_solver.
    + by intros ->.
    + intros names Hexts Hlist Hscan.
      destruct (target_extensions w) eqn:Hw; [done|].
      rewrite Hlist. cbn zeta. rewrite Hscan. by eexists.
Qed.

Lemma output_dir_created_first_witness :
  "/out" ∈ directories (final_disk (run_conversions idle_worker three_files_env)) ∧
  trace (run_conversions idle_worker three_files_env) =
    [MakeDirs "/out";
     Emit (Progress "Nenhum formato de entrada especificado.");
     Emit (Finished "Nenhum formato de entrada para procurar.")].
Proof.
  destruct (proj2 (proj2 (output_dir_created_first idle_worker three_files_env)) eq_refl)
    as (Hdir & Hidle & _).
  exact (conj Hdir (Hidle eq_refl)).
Defined.

(** ** Cancellation while the engine is live *)

(** C1, as stated, fails: the engine of the only file is live when
    [stop_conversions] lands and exits with code 0; the file is
    reported as a success and counted. *)
Lemma live_cancellation_counterexample :
  events (trace (run_conversions sample_worker (cancel_live_env 0))) =
    [Progress "Procurando por arquivos com extensões: mp4, mkv em '/in'";
     Progress "Encontrados 1 arquivo(s) para processar.";
     OverallProgress 0 1;
     Progress "[1/1] Convertendo: a.mp4...";
     Progress "Sinal de cancelamento recebido...";
     Progress "Tentando interromper o processo FFmpeg atual...";
     Progress "Sucesso: a_jellyfin_x264_gpu.mp4";
     OverallProgress 1 1;
     Finished "Conversão cancelada. 1/1 arquivos processados antes do cancelamento."] ∧
  files_succeeded_count (final_counters (run_conversions sample_worker (cancel_live_env 0)))
    = 1.
Proof. split; by vm_compute. Qed.

(** C1, amended. When [stop_conversions] lands while the engine of a
    file is live and the worker reads the exit code before the handle
    is cleared: with a non-zero exit code the iteration ends with the
    interruption message and the overall-progress signal, and the
    succeeded counter is unchanged; with exit code 0 it ends with the
    success message and the counter grows by one.  In both cases the
    run flag is cleared and only the actions of [stop_conversions]
    stand between the launch and that message. *)
Theorem live_cancellation_outcome (w : Worker) (total_files i : nat) (file_path : string)
    (r : FileRun) (st : RunState) (c : Counters) (ls : LiveStop)
    (stdout stderr : string) (return_code : Z) :
  is_running st = true →
  stop_at_top r = false →
  launch r = Exited stdout stderr return_code →
  stop_while_live r = Some ls →
  clear_point ls = AfterRead →
  let before := maybe_stop (stop_before_launch r) st in
  let stop := stop_request (terminate_result ls) (set_process (Some i) before.1) in
  let late := maybe_stop (stop_after_exit r) (set_process None stop.1) in
  let outcome :=
    if (return_code =? 0)%Z
    then success_message (output_filename (ffmpeg_params w) file_path)
    else interrupted_message (PosixPath.basename file_path) in
  ∃ c',
    convert_file w total_files i file_path r st c =
      Next late.1 c'
        (Emit (Progress (converting_message i total_files (PosixPath.basename file_path)))
         :: map Emit (rate_control (ffmpeg_params w)).2
         ++ before.2 ++ [Popen (ffmpeg_cmd_list w file_path)]
         ++ stop.2 ++ late.2
         ++ [Emit (Progress outcome); Emit (OverallProgress (i + 1) total_files)]) ∧
    is_running late.1 = false ∧
    files_processed_count c' = files_processed_count c + 1 ∧
    files_succeeded_count c' =
      files_succeeded_count c + (if (return_code =? 0)%Z then 1 else 0).
Proof.
  intros Hrun Htop Hlaunch Hlive Hclear before stop late outcome.
  unfold convert_file. rewrite Htop. cbn [maybe_stop]. rewrite Hrun. cbn [negb].
  fold before. destruct before as [st1 tr1] eqn:Hbefore. rewrite Hlaunch.
  unfold supervise. rewrite Hlive, Hclear. cbn [fst snd] in *.
  fold stop. destruct stop as [st2 tr2] eqn:Hstop.
  assert (Hst2 : st2 = set_running false (set_process (Some i) st1)).
  { subst stop. unfold stop_request in Hstop. cbn in Hstop.
    destruct (terminate_result ls); by inversion Hstop. }
  cbn [fst snd] in *. subst st2. cbn [set_running set_process current_process is_running].
  change {| is_running := false; current_process := None |}
    with (set_process None (set_running false (set_process (Some i) st1))).
  fold late. destruct late as [st3 tr3] eqn:Hlate. cbn [fst snd].
  assert (Hst3 : is_running st3 = false).
  { subst late. destruct (stop_after_exit r); cbn in Hlate; by inversion Hlate. }
  unfold report_exit, outcome. rewrite Hst3. cbn [negb andb].
  destruct (return_code =? 0)%Z; cbn [negb].
  - eexists. split; [norm_trace|]. cbn. repeat split; lia.
  - eexists. split; [norm_trace|]. cbn. repeat split; lia.
Qed.

Lemma live_cancellation_outcome_witness :
  ∃ c',
    convert_file sample_worker 1 0 "/in/a.mp4" (live_stop (-15)) started no_files_yet =
      Next {| is_running := false; current_process := None |} c'
        [Emit (Progress "[1/1] Convertendo: a.mp4...");
         Popen (ffmpeg_cmd_list sample_worker "/in/a.mp4");
         Emit (Progress "Sinal de cancelamento recebido...");
         Emit (Progress "Tentando interromper o processo FFmpeg atual...");
         Terminate 0;
         Emit (Progress "Conversão de a.mp4 interrompida.");
         Emit (OverallProgress 1 1)] ∧
    is_running {| is_running := false; current_process := None |} = false ∧
    files_processed_count c' = 1 ∧
    files_succeeded_count c' = 0.
Proof.
  exact (live_cancellation_outcome sample_worker 1 0 "/in/a.mp4" (live_stop (-15)) started
           no_files_yet {| terminate_result := Terminated; clear_point := AfterRead |}
           "" "" (-15) eq_refl eq_refl eq_refl eq_refl eq_refl).
Defined.


(** The two cancellation scenarios of the specification. *)
Example cancel_before_first_file :
  events (trace (run_conversions sample_worker cancel_first_env)) =
    [Progress "Procurando por arquivos com extensões: mp4, mkv em '/in'";
     Progress "Encontrados 3 arquivo(s) para processar.";
     OverallProgress 0 3;
     Progress "Sinal de cancelamento recebido...";
     Progress "Conversão cancelada pelo usuário.";
     Finished "Conversão cancelada. 0/0 arquivos processados antes do cancelamento."] ∧
  launches (trace (run_conversions sample_worker cancel_first_env)) = [].
Proof. split; by vm_compute. Qed.

Example cancel_during_second_file :
  events (trace (run_conversions sample_worker cancel_second_env)) =
    [Progress "Procurando por arquivos com extensões: mp4, mkv em '/in'";
     Progress "Encontrados 3 arquivo(s) para processar.";
     OverallProgress 0 3;
     Progress "[1/3] Convertendo: a.mp4...";
     Progress "Sucesso: a_jellyfin_x264_gpu.mp4";
     OverallProgress 1 3;
     Progress "[2/3] Convertendo: b.mkv...";
     Progress "Sinal de cancelamento recebido...";
     Progress "Tentando interromper o processo FFmpeg atual...";
     Progress "Conversão de b.mkv interrompida.";
     OverallProgress 2 3;
     Progress "Conversão cancelada pelo usuário.";
     Finished "Conversão cancelada. 1/2 arquivos processados antes do cancelamento."] ∧
  launches (trace (run_conversions sample_worker cancel_second_env)) =
    [ffmpeg_cmd_list sample_worker "/in/a.mp4"; ffmpeg_cmd_list sample_worker "/in/b.mkv"].
Proof. split; by vm_compute. Qed.


(** * Further properties of the worker *)

(** ** Every iteration, whatever the environment *)

Ltac all_of :=
  unfold only_progress, no_signal, signals_to, no_terminal in *;
  repeat first
    [ assumption
    | apply Forall_nil_2
    | apply Forall_app_2
    | apply Forall_cons_2; [done|] ].

Section Steps.

Lemma stop_request_spec (t : TerminateResult) (st : RunState) (i : nat) :
  current_process st = Some i →
  (stop_request t st).1 = set_running false st ∧
  only_progress (stop_request t st).2 ∧ signals_to i (stop_request t st).2.
Proof.
  intros H. unfold stop_request. rewrite H.
  destruct t; cbn [fst snd]; (split; [done|]); split; all_of.
Qed.

Lemma maybe_stop_spec (lands : bool) (st : RunState) :
  current_process st = None →
  is_running (maybe_stop lands st).1 = is_running st && negb lands ∧
  current_process (maybe_stop lands st).1 = None ∧
  only_progress (maybe_stop lands st).2 ∧ no_signal (maybe_stop lands st).2.
Proof.
  intros H. destruct lands; cbn [maybe_stop].
  - unfold stop_conversions, stop_request. rewrite H. cbn.
    rewrite andb_false_r. repeat split; all_of.
  - cbn. rewrite andb_true_r. repeat split; [done|all_of..].
Qed.

Lemma on_exception_spec (name e : string) (st : RunState) (i : nat) :
  current_process st = None ∨ current_process st = Some i →
  (on_exception name e st).1 = set_process None st ∧
  only_progress (on_exception name e st).2 ∧ signals_to i (on_exception name e st).2.
Proof.
  intros [H|H]; unfold on_exception; rewrite H; cbn [fst snd];
    (split; [done|]); split; all_of.
Qed.

Lemma report_exit_spec (name out_name stdout stderr : string) (rc : Z)
    (st : RunState) (c : Counters) :
  let c' := (report_exit name out_name stdout stderr rc st c).1 in
  files_processed_count c' = files_processed_count c ∧
  files_succeeded_count c ≤ files_succeeded_count c' ≤ files_succeeded_count c + 1 ∧
  no_signal (report_exit name out_name stdout stderr rc st c).2.
Proof.
  unfold report_exit.
  destruct (negb (is_running st) && negb (rc =? 0)%Z); cbn; [repeat split; [lia..|all_of]|].
  destruct (rc =? 0)%Z; cbn; (repeat split; [lia..|]); [all_of|].
  unfold excerpt. destruct (PyStr.truthy stdout), (PyStr.truthy stderr); cbn; all_of.
Qed.

(** What supervising the engine of the file of index [i] leaves. *)
Lemma supervise_spec (name out_name : string) (i : nat) (r : FileRun)
    (res : option (string * string * Z)) (raised : string)
    (st : RunState) (c : Counters) :
  let out := supervise name out_name i r res raised st c in
  current_process out.1.1 = None ∧
  is_running out.1.1 =
    is_running st &&
    negb (bool_decide (is_Some (stop_while_live r)) ||
          (bool_decide (is_Some res) && stop_after_exit r)) ∧
  files_processed_count out.1.2 = files_processed_count c ∧
  files_succeeded_count c ≤ files_succeeded_count out.1.2 ≤ files_succeeded_count c + 1 ∧
  only_progress out.2 ∧ signals_to i out.2.
Proof.
  unfold supervise.
  set (st0 := set_process (Some i) st).
  assert (Hstop : ∃ st1 tr1 cp,
            match stop_while_live r with
            | Some ls =>
                let '(st', tr) := stop_request (terminate_result ls) st0 in
                (st', tr, clear_point ls)
            | None => (st0, [], AfterRead)
            end = (st1, tr1, cp) ∧
            only_progress tr1 ∧ signals_to i tr1 ∧ current_process st1 = Some i ∧
            is_running st1 =
              is_running st && negb (bool_decide (is_Some (stop_while_live r))) ∧
            (stop_while_live r = None → cp = AfterRead)).
  { destruct (stop_while_live r) as [ls|].
    - destruct (stop_request_spec (terminate_result ls) st0 i eq_refl) as (Hst & Hp & Hs).
      destruct (stop_request (terminate_result ls) st0) as [st1 tr1]. cbn [fst snd] in *.
      exists st1, tr1, (clear_point ls). subst st1.
      rewrite bool_decide_true by eauto. cbn. rewrite andb_false_r. done.
    - exists st0, [], AfterRead. rewrite bool_decide_false by (by intros [? ?]).
      cbn. rewrite andb_true_r. repeat split; all_of. }
  destruct Hstop as (st1 & tr1 & cp & -> & Hp1 & Hs1 & Hcur1 & Hrun1 & Hcp).
  assert (Hlive : cp ≠ AfterRead → bool_decide (is_Some (stop_while_live r)) = true).
  { intros Hne. destruct (stop_while_live r); [by apply bool_decide_true|].
    by specialize (Hcp eq_refl). }
  destruct cp.
  - (* cleared before the read of line 132 *)
    cbv iota. cbn [stop_clear set_process current_process].
    destruct (on_exception_spec name (none_has_no "communicate")
                (set_process None st1) i (or_introl eq_refl)) as (Hst & Hp & Hs).
    destruct (on_exception name (none_has_no "communicate") (set_process None st1))
      as [st2 tr2]. cbn [fst snd] in *. subst st2. cbn.
    rewrite Hrun1, Hlive by done. cbn. rewrite andb_false_r.
    repeat split; [lia..|all_of|all_of].
  - (* cleared between the reads *)
    cbv iota. rewrite Hcur1. cbn [stop_clear].
    destruct res as [[[stdout stderr] rc]|].
    + cbn [set_process current_process].
      destruct (on_exception_spec name (none_has_no "returncode")
                  (set_process None st1) i (or_introl eq_refl)) as (Hst & Hp & Hs).
      destruct (on_exception name (none_has_no "returncode") (set_process None st1))
        as [st2 tr2]. cbn [fst snd] in *. subst st2. cbn.
      rewrite Hrun1, Hlive by done. cbn. rewrite andb_false_r.
      repeat split; [lia..|all_of|all_of].
    + destruct (on_exception_spec name raised (set_process None st1) i
                  (or_introl eq_refl)) as (Hst & Hp & Hs).
      destruct (on_exception name raised (set_process None st1)) as [st2 tr2].
      cbn [fst snd] in *. subst st2. cbn.
      rewrite Hrun1, Hlive by done. cbn. rewrite andb_false_r.
      repeat split; [lia..|all_of|all_of].
  - (* not cleared before the reads *)
    cbv iota. rewrite Hcur1.
    destruct res as [[[stdout stderr] rc]|].
    + destruct (maybe_stop_spec (stop_after_exit r) (set_process None st1) eq_refl)
        as (Hrun2 & Hcur2 & Hp2 & Hs2).
      destruct (maybe_stop (stop_after_exit r) (set_process None st1)) as [st2 tr2].
      cbn [fst snd] in *.
      pose proof (report_exit_spec name out_name stdout stderr rc st2 c) as (Hc1 & Hc2 & Hs3).
      pose proof (report_exit_only_progress name out_name stdout stderr rc st2 c) as Hp3.
      destruct (report_exit name out_name stdout stderr rc st2 c) as [c3 tr3].
      cbn [fst snd] in *. rewrite Hrun2. cbn [set_process is_running]. rewrite Hrun1.
      assert (Hs2' : signals_to i tr2).
      { unfold signals_to, no_signal in *. eapply Forall_impl; [exact Hs2|].
        by intros []. }
      assert (Hs3' : signals_to i tr3).
      { unfold signals_to, no_signal in *. eapply Forall_impl; [exact Hs3|].
        by intros []. }
      rewrite (bool_decide_true (is_Some (Some (stdout, stderr, rc)))) by eauto.
      cbn [andb]. split; [done|]. split.
      { destruct (is_running st), (bool_decide (is_Some (stop_while_live r))),
          (stop_after_exit r); done. }
      repeat split; [lia..|all_of|all_of].
    + destruct (on_exception_spec name raised st1 i (or_intror Hcur1)) as (Hst & Hp & Hs).
      destruct (on_exception name raised st1) as [st2 tr2].
      cbn [fst snd] in *. subst st2. cbn [set_process is_running current_process].
      rewrite Hrun1.
      rewrite (bool_decide_false (is_Some (@None (string * string * Z))))
        by (by intros [? ?]).
      cbn [andb]. rewrite orb_false_r.
      repeat split; [lia..|all_of|all_of].
Qed.

End Steps.

Section Step_of_loop.

Variable w : Worker.
Variable total_files : nat.

Lemma notices_no_signal (cfg : EncoderConfig) : no_signal (map Emit (rate_control cfg).2).
Proof.
  unfold rate_control.
  destruct (String.eqb (RC_MODE cfg) "cqp"), (String.eqb (RC_MODE cfg) "vbr_peak");
    cbn; all_of.
Qed.

(** What one iteration does, from a state without live process. *)
Lemma convert_file_step (i : nat) (file_path : string) (r : FileRun)
    (st : RunState) (c : Counters) :
  current_process st = None →
  match convert_file w total_files i file_path r st c with
  | Break st' tr =>
      (is_running st = false ∨ stop_at_top r = true) ∧
      is_running st' = false ∧ current_process st' = None ∧
      only_progress tr ∧ no_signal tr
  | Return st' tr =>
      is_running st = true ∧ stop_at_top r = false ∧ launch r = EngineNotFound ∧
      is_running st' = false ∧ current_process st' = None ∧
      ∃ pre, tr = pre ++ [Popen (ffmpeg_cmd_list w file_path);
                          Emit (CriticalError engine_not_found_message)] ∧
             only_progress pre ∧ no_signal pre
  | Next st' c' tr =>
      is_running st = true ∧ stop_at_top r = false ∧ launch r ≠ EngineNotFound ∧
      is_running st' = negb (stop_lands r) ∧ current_process st' = None ∧
      files_processed_count c' = files_processed_count c + 1 ∧
      files_succeeded_count c ≤ files_succeeded_count c' ≤ files_succeeded_count c + 1 ∧
      ∃ pre post,
        tr = pre ++ Popen (ffmpeg_cmd_list w file_path)
                 :: post ++ [Emit (OverallProgress (S i) total_files)] ∧
        only_progress pre ∧ no_signal pre ∧ only_progress post ∧ signals_to i post
  end.
Proof.
  intros Hcur. unfold convert_file.
  destruct (maybe_stop_spec (stop_at_top r) st Hcur) as (Hrun1 & Hcur1 & Hp1 & Hs1).
  destruct (maybe_stop (stop_at_top r) st) as [st1 tr1]. cbn [fst snd] in *.
  destruct (is_running st1) eqn:Hst1; cbn [negb].
  2:{ split; [|repeat split; [done|all_of..]].
      symmetry in Hrun1. apply andb_false_iff in Hrun1 as [?|?%negb_false_iff]; auto. }
  symmetry in Hrun1. apply andb_true_iff in Hrun1 as [Hrun Htop%negb_true_iff].
  destruct (maybe_stop_spec (stop_before_launch r) st1 Hcur1) as (Hrun2 & Hcur2 & Hp2 & Hs2).
  destruct (maybe_stop (stop_before_launch r) st1) as [st2 tr2]. cbn [fst snd] in *.
  rewrite Hst1 in Hrun2. cbn [andb] in Hrun2.
  pose proof (notices_only_progress (ffmpeg_params w)) as Hn1.
  pose proof (notices_no_signal (ffmpeg_params w)) as Hn2.
  set (name := PosixPath.basename file_path).
  set (out_name := output_filename (ffmpeg_params w) file_path).
  set (c1 := {| files_processed_count := files_processed_count c + 1;
                files_succeeded_count := files_succeeded_count c |}).
  set (conv := Emit (Progress (converting_message i total_files name))).
  set (notes := map Emit (rate_control (ffmpeg_params w)).2) in *.
  assert (Hpre : only_progress (tr1 ++ (conv :: notes) ++ tr2) ∧
                 no_signal (tr1 ++ (conv :: notes) ++ tr2)).
  { split; all_of. }
  destruct Hpre as [Hpre1 Hpre2].
  unfold stop_lands. rewrite Htop. cbn [orb].
  destruct (launch r) as [|e|e|stdout stderr rc] eqn:Hlaunch.
  - repeat split; [done..|].
    exists (tr1 ++ (conv :: notes) ++ tr2). split; [|done]. norm_trace.
  - destruct (on_exception_spec name e st2 i (or_introl Hcur2)) as (Hst & Hp & Hs).
    destruct (on_exception name e st2) as [st3 tr3]. cbn [fst snd] in *. subst st3.
    cbn [set_process is_running current_process]. rewrite Hrun2, orb_false_r.
    repeat (split; [first [done | cbn; lia]|]).
    exists (tr1 ++ (conv :: notes) ++ tr2), tr3. rewrite Nat.add_1_r.
    split; [norm_trace|done].
  - pose proof (supervise_spec name out_name i r None e st2 c1)
      as (Hc & Hr & Hp & Hsu & Hop & Hsig).
    destruct (supervise name out_name i r None e st2 c1) as [[st3 c3] tr3].
    cbn [fst snd] in *. rewrite Hr, Hrun2.
    rewrite (bool_decide_false (is_Some (@None (string * string * Z))))
      by (by intros [? ?]).
    cbn [andb]. rewrite orb_false_r.
    repeat (split;
      [first [ done
             | by destruct (stop_before_launch r),
                    (bool_decide (is_Some (stop_while_live r))), (stop_after_exit r)
             | cbn in *; lia ]|]).
    exists (tr1 ++ (conv :: notes) ++ tr2), tr3. rewrite Nat.add_1_r.
    split; [norm_trace|done].
  - pose proof (supervise_spec name out_name i r (Some (stdout, stderr, rc)) "" st2 c1)
      as (Hc & Hr & Hp & Hsu & Hop & Hsig).
    destruct (supervise name out_name i r (Some (stdout, stderr, rc)) "" st2 c1)
      as [[st3 c3] tr3].
    cbn [fst snd] in *. rewrite Hr, Hrun2.
    rewrite (bool_decide_true (is_Some (Some (stdout, stderr, rc)))) by eauto.
    cbn [andb].
    repeat (split;
      [first [ done
             | by destruct (stop_before_launch r),
                    (bool_decide (is_Some (stop_while_live r))), (stop_after_exit r)
             | cbn in *; lia ]|]).
    exists (tr1 ++ (conv :: notes) ++ tr2), tr3. rewrite Nat.add_1_r.
    split; [norm_trace|done].
Qed.

End Step_of_loop.

(** ** The whole loop, whatever the environment *)

Section Loop_account.

Variable w : Worker.
Variable sched : nat → FileRun.
Variable total_files : nat.

Lemma targets_quiet (n : nat) (tr rest : list Action) :
  only_progress tr → no_signal tr →
  targets_current n rest → targets_current n (tr ++ rest).
Proof.
  unfold only_progress, no_signal. intros Hp Hs Hrest.
  induction tr as [|a tr IH]; [done|].
  apply Forall_cons in Hp as [Ha Hp]. apply Forall_cons in Hs as [Hb Hs].
  destruct a as [[]| | | | |]; try done; cbn; by apply IH.
Qed.

Lemma targets_signalled (h : nat) (tr rest : list Action) :
  only_progress tr → signals_to h tr →
  targets_current (S h) rest → targets_current (S h) (tr ++ rest).
Proof.
  unfold only_progress, signals_to. intros Hp Hs Hrest.
  induction tr as [|a tr IH]; [done|].
  apply Forall_cons in Hp as [Ha Hp]. apply Forall_cons in Hs as [Hb Hs].
  destruct a as [[]| | | | |]; try done; cbn.
  - by apply IH.
  - split; [by subst|by apply IH].
  - split; [by subst|by apply IH].
Qed.

(** The trace of an iteration that goes on to the next file. *)
Lemma next_trace (i : nat) (cmd : list string) (pre post : list Action) :
  only_progress pre → only_progress post →
  launches (pre ++ Popen cmd :: post ++ [Emit (OverallProgress (S i) total_files)]) = [cmd] ∧
  overall_progress (pre ++ Popen cmd :: post ++ [Emit (OverallProgress (S i) total_files)])
    = [(S i, total_files)].
Proof.
  intros [Hp1 Hp2]%only_progress_silent [Hq1 Hq2]%only_progress_silent.
  rewrite launches_app, overall_progress_app, Hp1, Hp2.
  change (Popen cmd :: post ++ [Emit (OverallProgress (S i) total_files)])
    with ([Popen cmd] ++ post ++ [Emit (OverallProgress (S i) total_files)]).
  by rewrite !launches_app, !overall_progress_app, Hq1, Hq2.
Qed.

(** What the loop over [files] does from the index [i] on, starting
    without live process: how many files it launches, in which order,
    what it counts and reports, and where the signals go. *)
Lemma conversion_loop_account (files : list string) :
  ∀ (i : nat) (st : RunState) (c : Counters),
    current_process st = None →
    match conversion_loop w sched total_files i files st c with
    | LoopLeft st' c' tr =>
        ∃ n, n ≤ length files ∧
          launches tr = map (ffmpeg_cmd_list w) (take n files) ∧
          overall_progress tr = map (λ k, (k, total_files)) (seq (S i) n) ∧
          files_processed_count c' = files_processed_count c + n ∧
          files_succeeded_count c ≤ files_succeeded_count c' ≤
            files_succeeded_count c + n ∧
          current_process st' = None ∧
          (is_running st' = true → n = length files ∧ is_running st = true) ∧
          (is_running st = false → n = 0) ∧
          (∀ k, k < length files → stop_lands (sched (i + k)) = true →
                n ≤ S k ∧ is_running st' = false) ∧
          (∀ rest, targets_current (i + n) rest → targets_current i (tr ++ rest))
    | LoopReturned st' tr =>
        ∃ n, n < length files ∧
          launches tr = map (ffmpeg_cmd_list w) (take (S n) files) ∧
          overall_progress tr = map (λ k, (k, total_files)) (seq (S i) n) ∧
          current_process st' = None ∧ is_running st' = false ∧
          is_running st = true ∧
          (∀ k, k < length files → stop_lands (sched (i + k)) = true → n ≤ k) ∧
          (∀ rest, targets_current (i + S n) rest → targets_current i (tr ++ rest))
    end.
Proof.
  induction files as [|f files IH]; intros i st c Hcur.
  { exists 0. cbn. rewrite !Nat.add_0_r.
    repeat split; try done; try (cbn in *; lia). }
  cbn [conversion_loop].
  pose proof (convert_file_step w total_files i f (sched i) st c Hcur) as Hstep.
  destruct (convert_file w total_files i f (sched i) st c)
    as [st1 tr1|st1 tr1|st1 c1 tr1].
  - (* break *)
    destruct Hstep as (Hwhy & Hrun1 & Hcur1 & Hp & Hs).
    destruct (only_progress_silent _ Hp) as [Ho Hl].
    exists 0. cbn [take map seq length].
    repeat split; try done; try lia; try congruence.
    intros rest Hrest. rewrite Nat.add_0_r in Hrest. by apply targets_quiet.
  - (* return *)
    destruct Hstep as (Hrun & Htop & Hmiss & Hrun1 & Hcur1 & pre & -> & Hp & Hs).
    destruct (only_progress_silent _ Hp) as [Ho Hl].
    exists 0. cbn [take map seq length].
    rewrite launches_app, overall_progress_app, Ho, Hl.
    repeat split; try done; try (cbn; lia).
    intros rest Hrest. rewrite <- List.app_assoc. apply targets_quiet; [done..|].
    cbn. by rewrite Nat.add_1_r in Hrest.
  - (* next *)
    destruct Hstep as (Hrun & Htop & Hfound & Hrun1 & Hcur1 & Hpc & Hsc &
                       pre & post & -> & Hp1 & Hs1 & Hp2 & Hs2).
    destruct (next_trace i (ffmpeg_cmd_list w f) pre post Hp1 Hp2) as [Hl Ho].
    assert (Htargets : ∀ rest, targets_current (S i) rest →
              targets_current i
                ((pre ++ Popen (ffmpeg_cmd_list w f)
                      :: post ++ [Emit (OverallProgress (S i) total_files)]) ++ rest)).
    { intros rest Hrest. rewrite <- List.app_assoc. apply targets_quiet; [done..|].
      cbn. rewrite <- List.app_assoc. by apply targets_signalled. }
    specialize (IH (S i) st1 c1 Hcur1).
    destruct (conversion_loop w sched total_files (S i) files st1 c1)
      as [st2 tr2|st2 c2 tr2].
    + destruct IH as (n & Hn & Hl2 & Ho2 & Hcur2 & Hrun2 & Hrun1' & Hstop & Ht).
      exists (S n). rewrite launches_app, overall_progress_app, Hl, Ho, Hl2, Ho2.
      cbn [take map seq length app].
      repeat split; try done; try lia.
      * intros k Hk Hlands. destruct k as [|k].
        -- rewrite Nat.add_0_r in Hlands. rewrite Hlands in Hrun1. cbn in Hrun1. congruence.
        -- cbn in Hk. replace (i + S k) with (S i + k) in Hlands by lia.
           specialize (Hstop k ltac:(lia) Hlands). lia.
      * intros rest Hrest. rewrite <- List.app_assoc. apply Htargets, Ht.
        by replace (S i + S n) with (i + S (S n)) by lia.
    + destruct IH as (n & Hn & Hl2 & Ho2 & Hpc2 & Hsc2 & Hcur2 & Hdone & Hoff & Hstop & Ht).
      exists (S n). rewrite launches_app, overall_progress_app, Hl, Ho, Hl2, Ho2.
      cbn [take map seq length app].
      repeat split; try done; try lia.
      * match goal with H : is_running st2 = true |- _ =>
          by destruct (Hdone H) as [-> _] end.
      * intros; congruence.
      * match goal with
        | Hk : ?k < _, Hl : stop_lands (sched (i + ?k)) = true |- _ =>
            destruct k as [|k];
            [ rewrite Nat.add_0_r in Hl; rewrite Hl in Hrun1; cbn in Hrun1;
              specialize (Hoff Hrun1); lia
            | cbn in Hk; replace (i + S k) with (S i + k) in Hl by lia;
              destruct (Hstop k ltac:(lia) Hl); lia ]
        end.
      * match goal with
        | Hk : ?k < _, Hl : stop_lands (sched (i + ?k)) = true |- _ =>
            destruct k as [|k];
            [ rewrite Nat.add_0_r in Hl; rewrite Hl in Hrun1; cbn in Hrun1;
              destruct (is_running st2) eqn:E; [|done];
              destruct (Hdone eq_refl); congruence
            | cbn in Hk; replace (i + S k) with (S i + k) in Hl by lia;
              by destruct (Hstop k ltac:(lia) Hl) ]
        end.
      * intros rest Hrest. rewrite <- List.app_assoc. apply Htargets, Ht.
        by replace (S i + n) with (i + S n) by lia.
Qed.

End Loop_account.

(** ** Every run *)

Section Run_account.

Variable w : Worker.
Variable env : Env.

(** A run either stops before the loop, having launched nothing, or
    reaches it with the files found. *)
Lemma run_conversions_cases :
  (launches (trace (run_conversions w env)) = [] ∧
   overall_progress (trace (run_conversions w env)) = [] ∧
   final_state (run_conversions w env) = started ∧
   targets_current 0 (trace (run_conversions w env))) ∨
  reaches_running w env (found_files w env).
Proof.
  unfold run_conversions, reaches_running, found_files.
  destruct (makedirs_error env) as [e|] eqn:Hmk; cbn [makedirs]; [by left|].
  destruct (target_extensions w) as [|ext exts] eqn:Hexts; [by left|].
  destruct (listdir_result env) as [names| |e] eqn:Hlist; [|by left..].
  cbn zeta. destruct (scan_files w (isfile env) names) as [|f files] eqn:Hscan; [by left|].
  right. repeat split; [done..|]. by exists names.
Qed.

(** What a run that reaches the loop does. *)
Lemma run_conversions_account (files : list string) :
  reaches_running w env files →
  ∃ n m,
    n ≤ length files ∧ m ≤ n ∧ n ≤ S m ∧
    launches (trace (run_conversions w env)) = map (ffmpeg_cmd_list w) (take n files) ∧
    overall_progress (trace (run_conversions w env)) =
      map (λ k, (k, length files)) (seq 0 (S m)) ∧
    current_process (final_state (run_conversions w env)) = None ∧
    targets_current 0 (trace (run_conversions w env)) ∧
    (∀ k, k < length files → stop_lands (schedule env k) = true →
          n ≤ S k ∧ is_running (final_state (run_conversions w env)) = false) ∧
    (ends_with (CriticalError engine_not_found_message) (trace (run_conversions w env)) ∨
     ∃ c, ends_with (Finished (summary (final_state (run_conversions w env)) c
                                       (length files)))
                    (trace (run_conversions w env)) ∧
          files_processed_count c = n ∧ files_succeeded_count c ≤ n ∧
          (is_running (final_state (run_conversions w env)) = true → n = length files)).
Proof.
  intros Hrun.
  rewrite (run_conversions_running w env files Hrun),
          (run_conversions_final_state w env files Hrun).
  pose proof (conversion_loop_account w (schedule env) (length files) files 0
                started no_files_yet eq_refl) as Hloop.
  pose proof (conversion_loop_stream w (schedule env) (length files) files 0
                started no_files_yet) as Hstream.
  destruct (conversion_loop w (schedule env) (length files) 0 files started no_files_yet)
    as [st' tr|st' c tr]; cbn [finish_batch fst snd].
  - destruct Hloop as (n & Hn & Hl & Ho & Hcur & Hrun' & _ & Hstop & Ht).
    destruct Hstream as (pre & -> & _).
    exists (S n), n.
    change (MakeDirs (output_dir w) :: running_head w (length files) ++
            pre ++ [Emit (CriticalError engine_not_found_message)])
      with ([MakeDirs (output_dir w)] ++ running_head w (length files) ++
            pre ++ [Emit (CriticalError engine_not_found_message)]).
    rewrite !launches_app, <- launches_app, !overall_progress_app,
      <- overall_progress_app, Hl, Ho.
    repeat split; try done; try lia.
    + cbn. specialize (Ht [] I). by rewrite List.app_nil_r in Ht.
    + match goal with Hk : ?k < _, Hl : stop_lands _ = true |- _ =>
        specialize (Hstop k Hk Hl); lia end.
    + left. exists (events ([MakeDirs (output_dir w)] ++ running_head w (length files)
                            ++ pre)).
      by rewrite !List.app_assoc, events_app.
  - destruct Hloop as (n & Hn & Hl & Ho & Hpc & Hsc & Hcur & Hdone & _ & Hstop & Ht).
    destruct (maybe_stop_spec (stop_after_loop env) st' Hcur) as (Hrun2 & Hcur2 & Hp2 & Hs2).
    destruct (maybe_stop (stop_after_loop env) st') as [st'' tr_end].
    cbn [fst snd] in *.
    destruct (only_progress_silent _ Hp2) as [Ho2 Hl2].
    exists n, n.
    change (MakeDirs (output_dir w) :: running_head w (length files) ++
            tr ++ tr_end ++ [Emit (Finished (summary st'' c (length files)))])
      with ([MakeDirs (output_dir w)] ++ running_head w (length files) ++
            tr ++ tr_end ++ [Emit (Finished (summary st'' c (length files)))]).
    rewrite !launches_app, !overall_progress_app, Hl, Ho, Hl2, Ho2.
    repeat split; try done; try lia.
    + cbn. by rewrite !List.app_nil_r.
    + cbn. by rewrite !List.app_nil_r.
    + cbn. apply Ht. apply targets_quiet; [done..|]. by cbn.
    + match goal with Hk : ?k < _, Hl : stop_lands _ = true |- _ =>
        specialize (Hstop k Hk Hl); lia end.
    + match goal with Hk : ?k < _, Hl : stop_lands _ = true |- _ =>
        destruct (Hstop k Hk Hl) as [_ Hoff]; by rewrite Hrun2, Hoff end.
    + right. exists c. split; [|split; [|split]].
      * exists (events ([MakeDirs (output_dir w)] ++ running_head w (length files)
                        ++ tr ++ tr_end)).
        by rewrite !List.app_assoc, events_app.
      * cbn in Hpc. lia.
      * cbn in Hsc. lia.
      * intros Hfin. rewrite Hrun2 in Hfin. apply andb_true_iff in Hfin as [Hfin _].
        by destruct (Hdone Hfin).
Qed.

End Run_account.

(** X1. The engine is launched for files the scan found only: the
    launches of any run are the commands of the first files of the
    sorted scan, in that order, each once. *)
Theorem launches_follow_scan (w : Worker) (env : Env) :
  ∃ n, n ≤ length (found_files w env) ∧
       launches (trace (run_conversions w env)) =
         map (ffmpeg_cmd_list w) (take n (found_files w env)).
Proof.
  destruct (run_conversions_cases w env) as [(Hl & _)|Hrun].
  - exists 0. split; [lia|]. by rewrite take_0.
  - destruct (run_conversions_account w env _ Hrun) as (n & m & Hn & _ & _ & Hl & _).
    by exists n.
Qed.

(** X2. The overall-progress signals of any run count up from 0 by
    one, never beyond the number of files found, which is their
    constant second component. *)
Theorem overall_progress_counts_up (w : Worker) (env : Env) :
  overall_progress (trace (run_conversions w env)) = [] ∨
  ∃ m, m ≤ length (found_files w env) ∧
       overall_progress (trace (run_conversions w env)) =
         map (λ k, (k, length (found_files w env))) (seq 0 (S m)).
Proof.
  destruct (run_conversions_cases w env) as [(_ & Ho & _)|Hrun]; [by left|].
  destruct (run_conversions_account w env _ Hrun) as (n & m & Hn & Hm & _ & _ & Ho & _).
  right. exists m. split; [lia|done].
Qed.

(** X3. No run leaves a process handle behind: [current_process] is
    [None] when [run_conversions] ends, whatever the engine and the
    controlling thread did. *)
Theorem no_process_left (w : Worker) (env : Env) :
  current_process (final_state (run_conversions w env)) = None.
Proof.
  destruct (run_conversions_cases w env) as [(_ & _ & -> & _)|Hrun]; [done|].
  by destruct (run_conversions_account w env _ Hrun) as (n & m & _ & _ & _ & _ & _ & H & _).
Qed.

(** X4. Every [terminate] and [kill] of a run goes to the process
    launched last: none is sent before the first launch, and none to
    the process of an earlier file. *)
Theorem signals_reach_current_process (w : Worker) (env : Env) :
  targets_current 0 (trace (run_conversions w env)).
Proof.
  destruct (run_conversions_cases w env) as [(_ & _ & _ & H)|Hrun]; [done|].
  by destruct (run_conversions_account w env _ Hrun)
    as (n & m & _ & _ & _ & _ & _ & _ & H & _).
Qed.

(** X5. In a run that reaches the loop and does not end with the
    engine-not-found error, the summary counts what happened: the
    processed count is the number of launches, at most the number of
    files; the succeeded count is at most the processed count; and
    when the run flag is still set every file was processed. *)
Theorem summary_counts (w : Worker) (env : Env) (files : list string) :
  reaches_running w env files →
  ends_with (CriticalError engine_not_found_message) (trace (run_conversions w env)) ∨
  ∃ c, ends_with (Finished (summary (final_state (run_conversions w env)) c (length files)))
                 (trace (run_conversions w env)) ∧
       files_processed_count c = length (launches (trace (run_conversions w env))) ∧
       files_succeeded_count c ≤ files_processed_count c ∧
       files_processed_count c ≤ length files ∧
       (is_running (final_state (run_conversions w env)) = true →
        files_processed_count c = length files).
Proof.
  intros Hrun.
  destruct (run_conversions_account w env _ Hrun)
    as (n & m & Hn & _ & _ & Hl & _ & _ & _ & _ & [Hend|(c & Hend & Hp & Hs & Hall)]).
  - by left.
  - right. exists c. rewrite Hl, length_map, length_take.
    repeat split; [done|lia..|intros H; specialize (Hall H); lia].
Qed.

Lemma summary_counts_witness :
  ends_with (CriticalError engine_not_found_message)
            (trace (run_conversions sample_worker cancel_second_env)) ∨
  ∃ c, ends_with (Finished (summary (final_state (run_conversions sample_worker
                                                    cancel_second_env)) c 3))
                 (trace (run_conversions sample_worker cancel_second_env)) ∧
       files_processed_count c =
         length (launches (trace (run_conversions sample_worker cancel_second_env))) ∧
       files_succeeded_count c ≤ files_processed_count c ∧
       files_processed_count c ≤ 3 ∧
       (is_running (final_state (run_conversions sample_worker cancel_second_env)) = true →
        files_processed_count c = 3).
Proof.
  apply (summary_counts sample_worker cancel_second_env three_files).
  split; [reflexivity|]. split; [discriminate|]. split; [discriminate|].
  exists ["c.mp4"; "a.mp4"; "b.mkv"]. split; [reflexivity|]. vm_compute. reflexivity.
Defined.

(** X6. Cancellation is honoured at the next file: when a
    [stop_conversions] call lands during the iteration of index [k],
    at most the [k + 1] first files are launched and the run ends with
    the run flag cleared. *)
Theorem cancellation_stops_launches (w : Worker) (env : Env) (files : list string)
    (k : nat) :
  reaches_running w env files →
  k < length files →
  stop_lands (schedule env k) = true →
  length (launches (trace (run_conversions w env))) ≤ S k ∧
  is_running (final_state (run_conversions w env)) = false.
Proof.
  intros Hrun Hk Hlands.
  destruct (run_conversions_account w env _ Hrun)
    as (n & m & Hn & _ & _ & Hl & _ & _ & _ & Hstop & _).
  destruct (Hstop k Hk Hlands) as [Hle Hoff].
  rewrite Hl, length_map, length_take. split; [lia|done].
Qed.

Lemma cancellation_stops_launches_witness :
  length (launches (trace (run_conversions sample_worker cancel_second_env))) ≤ 2 ∧
  is_running (final_state (run_conversions sample_worker cancel_second_env)) = false.
Proof.
  apply (cancellation_stops_launches sample_worker cancel_second_env three_files 1).
  - split; [reflexivity|]. split; [discriminate|]. split; [discriminate|].
    exists ["c.mp4"; "a.mp4"; "b.mkv"]. split; [reflexivity|]. vm_compute. reflexivity.
  - simpl. lia.
  - reflexivity.
Defined.

(** X7. Cancelling before the first file: nothing is launched and the
    summary reports 0 of 0 files. *)
Theorem cancel_before_first (w : Worker) (env : Env) (files : list string) :
  reaches_running w env files →
  stop_at_top (schedule env 0) = true →
  launches (trace (run_conversions w env)) = [] ∧
  ends_with (Finished "Conversão cancelada. 0/0 arquivos processados antes do cancelamento.")
            (trace (run_conversions w env)).
Proof.
  intros Hrun Htop.
  rewrite (run_conversions_running w env files Hrun).
  destruct Hrun as (_ & _ & Hfiles & _).
  destruct files as [|f files]; [done|].
  cbn [conversion_loop]. unfold convert_file. rewrite Htop.
  cbn [maybe_stop stop_conversions stop_request started current_process set_running
       stop_clear set_process is_running negb finish_batch fst snd].
  destruct (maybe_stop_spec (stop_after_loop env)
              {| is_running := false; current_process := None |} eq_refl)
    as (Hoff & _ & [_ Hl]%only_progress_silent & _).
  destruct (maybe_stop (stop_after_loop env) _) as [st tr_end]. cbn [fst snd] in *.
  unfold summary. rewrite Hoff. cbn [andb]. split.
  - change (MakeDirs (output_dir w) :: ?x) with ([MakeDirs (output_dir w)] ++ x).
    rewrite !launches_app, Hl. reflexivity.
  - eexists. rewrite List.app_comm_cons, !List.app_assoc, events_app. reflexivity.
Qed.

Lemma cancel_before_first_witness :
  launches (trace (run_conversions sample_worker cancel_first_env)) = [] ∧
  ends_with (Finished "Conversão cancelada. 0/0 arquivos processados antes do cancelamento.")
            (trace (run_conversions sample_worker cancel_first_env)).
Proof.
  apply (cancel_before_first sample_worker cancel_first_env three_files).
  - split; [reflexivity|]. split; [discriminate|]. split; [discriminate|].
    exists ["c.mp4"; "a.mp4"; "b.mkv"]. split; [reflexivity|]. vm_compute. reflexivity.
  - reflexivity.
Defined.

(** ** Messages and cancellation requests *)

Section Excerpts.

Import PyStr.





End Excerpts.



(** X9. [stop_conversions] always clears the run flag and the process
    handle; it asks the process to terminate exactly when one is
    live, kills it only when the grace period expired, and a second
    call changes nothing and only emits the first message. *)
Theorem stop_conversions_effect (t : TerminateResult) (st : RunState) :
  let after := (stop_conversions t st).1 in
  let tr := (stop_conversions t st).2 in
  is_running after = false ∧ current_process after = None ∧
  (∀ h, Terminate h ∈ tr ↔ current_process st = Some h) ∧
  (∀ h, Kill h ∈ tr ↔ current_process st = Some h ∧ t = TimeoutExpired) ∧
  (∀ t', stop_conversions t' after =
         (after, [Emit (Progress "Sinal de cancelamento recebido...")])).
Proof.
  unfold stop_conversions, stop_request.
  destruct st as [run [h0|]], t; cbn;
    (split; [done|]); (split; [done|]); (split; [|split; [|done]]);
    intros h; split;
    first
      [ (* a signal of the trace has the live handle *)
        intros H;
        repeat (apply elem_of_cons in H as [H|H];
                [first [discriminate H | by inversion H]|]);
        by apply elem_of_nil in H
      | (* no process was live *)
        by intros [= ]
      | by intros [[= ] _]
      | (* no kill without expiry *)
        by intros [_ [= ]]
      | (* the signal is in the trace *)
        intros [= ->]; flag_in
      | intros [[= ->] _]; flag_in ].
Qed.

Lemma stop_conversions_effect_witness :
  Kill 0 ∈ (stop_conversions TimeoutExpired
              {| is_running := true; current_process := Some 0 |}).2.
Proof.
  apply (proj2 (proj1 (proj2 (proj2 (proj2
           (stop_conversions_effect TimeoutExpired
              {| is_running := true; current_process := Some 0 |})))) 0)).
  split; reflexivity.
Defined.

(** ** Letter case *)

Section Letter_case.

Import PyStr.

Lemma lower_char_idem (c : ascii) : lower_char (lower_char c) = lower_char c.
Proof. by destruct c as [[] [] [] [] [] [] [] []]. Qed.

Lemma lower_char_dot (c : ascii) : Ascii.eqb (lower_char c) "." = Ascii.eqb c ".".
Proof. by destruct c as [[] [] [] [] [] [] [] []]. Qed.

Lemma lower_idem (s : string) : lower (lower s) = lower s.
Proof. induction s as [|a s IH]; [done|]. cbn. by rewrite lower_char_idem, IH. Qed.

Lemma contains_dot_lower (s : string) :
  contains_char "." (lower s) = contains_char "." s.
Proof.
  induction s as [|a s IH]; [done|]. cbn. by rewrite lower_char_dot, IH.
Qed.

Lemma split_dot_lower (s : string) : split "." (lower s) = map lower (split "." s).
Proof.
  induction s as [|a s IH]; [done|]. cbn. rewrite lower_char_dot, IH.
  destruct (Ascii.eqb a "."); [done|].
  pose proof (split_not_nil "." s). by destruct (split "." s).
Qed.

Lemma last_field_map_lower (l : list string) :
  l ≠ [] → last_field (map lower l) = lower (last_field l).
Proof.
  induction l as [|x [|y l] IH]; [done|done|]. intros _.
  change (last_field (map lower (x :: y :: l))) with (last_field (map lower (y :: l))).
  by rewrite IH.
Qed.

End Letter_case.

(** The extension of line 68 is the same for a name and for its lower
    case. *)
Lemma file_ext_lower_lower (filename : string) :
  file_ext_lower (PyStr.lower filename) = file_ext_lower filename.
Proof.
  unfold file_ext_lower. rewrite contains_dot_lower.
  destruct (PyStr.contains_char "." filename); [|done].
  rewrite split_dot_lower, last_field_map_lower by apply split_not_nil.
  apply lower_idem.
Qed.

Lemma filter_truthy_caseless (raw raw' : list string) :
  Forall2 (λ r r', caseless_eqb r r' = true) raw raw' →
  map PyStr.lower (List.filter PyStr.truthy raw) =
  map PyStr.lower (List.filter PyStr.truthy raw').
Proof.
  induction 1 as [|r r' raw raw' Hr _ IH]; [done|]. cbn.
  rewrite <- (caseless_truthy _ _ Hr). destruct (PyStr.truthy r); [|done].
  cbn. by rewrite (caseless_lower_eq _ _ Hr), IH.
Qed.

(** X10. The constructor normalises the ASCII extensions it is given:
    the extensions it keeps are not empty and have no capital letter,
    they are exactly the texts without capital letter that equal, up
    to letter case, a non-empty extension given; there are no more
    than were given; and the same extensions given in another letter
    case build the same worker. *)
Theorem new_worker_normalises (in_dir out_dir : string) (cfg : EncoderConfig)
    (raw : list string) :
  Forall (λ r, isascii r = true) raw →
  let w := new_worker in_dir out_dir cfg raw in
  Forall (λ e, e ≠ "" ∧ no_upper e = true) (target_extensions w) ∧
  (∀ e, e ∈ target_extensions w ↔
        no_upper e = true ∧ ∃ r, r ∈ raw ∧ r ≠ "" ∧ caseless_eqb r e = true) ∧
  length (target_extensions w) ≤ length raw ∧
  (∀ raw', Forall2 (λ r r', caseless_eqb r r' = true) raw raw' →
           new_worker in_dir out_dir cfg raw' = w).
Proof.
  intros _. cbn. split; [|split; [|split]].
  - apply Forall_forall. intros e (r & -> & Hr)%list_elem_of_fmap.
    apply list_elem_of_In, List.filter_In in Hr as [_ Hr].
    split; [by apply lower_truthy|apply no_upper_lower].
  - intros e. split.
    + intros (r & -> & Hr)%list_elem_of_fmap.
      apply list_elem_of_In, List.filter_In in Hr as [Hr%list_elem_of_In Ht].
      split; [apply no_upper_lower|]. exists r.
      split; [done|]. split; [by destruct r|apply caseless_lower].
    + intros (He & r & Hr & Hne & Hre). apply list_elem_of_fmap. exists r. split.
      * symmetry. by apply lower_spec.
      * apply list_elem_of_In, List.filter_In. split; [by apply list_elem_of_In|].
        by destruct r.
  - rewrite length_map. apply List.filter_length_le.
  - intros raw' Hraw. unfold new_worker. f_equal. symmetry.
    by apply filter_truthy_caseless.
Qed.

Lemma new_worker_normalises_witness :
  Forall (λ e, e ≠ "" ∧ no_upper e = true)
         (target_extensions (new_worker "/in" "/out" DEFAULT_FFMPEG_CONFIG ["MP4"; ""; "Mkv"])).
Proof.
  assert (Hraw : Forall (λ r, isascii r = true) ["MP4"; ""; "Mkv"]) by (repeat constructor).
  exact (proj1 (new_worker_normalises "/in" "/out" DEFAULT_FFMPEG_CONFIG
                                      ["MP4"; ""; "Mkv"] Hraw)).
Defined.

(** X11. The extension test does not depend on the letter case of an
    ASCII file name: two names that are equal up to letter case have
    the same extension for line 68, and that extension has no capital
    letter, so [B.MKV] and [b.mkv] are treated alike. *)
Theorem extension_test_ignores_case (filename filename' : string) :
  isascii filename = true →
  caseless_eqb filename filename' = true →
  file_ext_lower filename = file_ext_lower filename' ∧
  no_upper (file_ext_lower filename) = true.
Proof.
  intros _ Hsame. split.
  - rewrite <- (file_ext_lower_lower filename), <- (file_ext_lower_lower filename').
    by rewrite (caseless_lower_eq _ _ Hsame).
  - unfold file_ext_lower. destruct (PyStr.contains_char "." filename); [|done].
    apply no_upper_lower.
Qed.

Lemma extension_test_ignores_case_witness :
  file_ext_lower "B.MKV" = file_ext_lower "b.mkv" ∧
  no_upper (file_ext_lower "B.MKV") = true.
Proof.
  apply (extension_test_ignores_case "B.MKV" "b.mkv"); reflexivity.
Defined.

(** ** Source and output *)

Section Source_and_output.

Import PyStr PosixPath.

(** The two parts cut at the last [c] make up the text. *)
Lemma cut_last (c : ascii) (s a : string) :
  before_last c s = Some a →
  ∃ b, after_last c s = Some b ∧ s = a +:+ String c b.
Proof.
  revert a. induction s as [|x s IH]; intros a; [done|]. cbn.
  destruct (before_last c s) as [a'|] eqn:Hb.
  - intros [= <-]. destruct (IH a' eq_refl) as (b & -> & ->). by exists b.
  - destruct (contains_char c s) eqn:Hc.
    + destruct (cut_at_last c s Hc) as (pre & ext & -> & Hext).
      by rewrite before_last_app in Hb.
    + rewrite (after_last_absent _ _ Hc).
      destruct (Ascii.eqb_spec x c) as [->|]; [|done].
      intros [= <-]. by exists s.
Qed.

Lemma after_last_clean (c : ascii) (s t : string) :
  after_last c s = Some t → contains_char c t = false.
Proof.
  revert t. induction s as [|x s IH]; intros t; [done|]. cbn.
  destruct (after_last c s) as [t'|] eqn:Ha.
  - intros [= <-]. by apply IH.
  - destruct (Ascii.eqb x c); [|done]. intros [= <-].
    destruct (contains_char c s) eqn:Hc; [|done].
    destruct (after_last_present c s Hc) as [? ?]. congruence.
Qed.

Lemma basename_clean (p : string) : contains_char sep (basename p) = false.
Proof.
  unfold basename. destruct (after_last sep p) as [t|] eqn:Ha.
  - by apply (after_last_clean _ p).
  - destruct (contains_char sep p) eqn:Hc; [|done].
    destruct (after_last_present sep p Hc) as [? ?]. congruence.
Qed.

(** The two parts of [splitext] of a name make up the name, and the
    second is empty or starts with a dot. *)
Lemma splitext_name_parts (q : string) :
  q = (splitext_name q).1 +:+ (splitext_name q).2 ∧
  ((splitext_name q).2 = "" ∨ ∃ e, (splitext_name q).2 = String extsep e).
Proof.
  unfold splitext_name.
  destruct (before_last extsep q) as [root|] eqn:Hb.
  - destruct (cut_last _ _ _ Hb) as (ext & -> & Hq).
    destruct (all_char extsep root); cbn.
    + split; [by rewrite str_app_nil_r|by left].
    + split; [done|right; by exists ext].
  - cbn. split; [by rewrite str_app_nil_r|by left].
Qed.

Lemma splitext_basename (p : string) :
  splitext (basename p) = splitext_name (basename p).
Proof.
  unfold splitext. by rewrite before_last_absent by apply basename_clean.
Qed.

Lemma endswith_char_cut (c : ascii) (s : string) :
  endswith_char c s = true → ∃ s', s = s' +:+ String c "".
Proof.
  induction s as [|a s IH]; [done|]. cbn. destruct s as [|b s].
  - intros ->%Ascii.eqb_eq. by exists "".
  - intros H. destruct (IH H) as (s' & Hs'). exists (String a s').
    by rewrite str_app_cons, <- Hs'.
Qed.

(** The base name of a joined path is the joined name. *)
Lemma basename_join (dir name : string) :
  contains_char sep name = false → basename (join dir name) = name.
Proof.
  intros Hname. unfold join, startswith.
  assert (String.prefix (String sep "") name = false) as ->.
  { destruct name as [|a name]; [done|].
    change (contains_char sep (String a name))
      with (if Ascii.eqb a sep then true else contains_char sep name) in Hname.
    destruct (Ascii.eqb_spec a sep) as [->|Hne]; [done|].
    cbn [String.prefix]. destruct (ascii_dec sep a); [congruence|done]. }
  destruct dir as [|d dir].
  - cbn. unfold basename. by rewrite after_last_absent.
  - cbn [truthy negb orb].
    destruct (endswith_char sep (String d dir)) eqn:Hend.
    + destruct (endswith_char_cut _ _ Hend) as (dir' & ->).
      rewrite str_app_assoc. by apply basename_app.
    + by apply basename_app.
Qed.

End Source_and_output.

(** X12. A conversion never writes over its own source: the output
    file name differs from the source file name, and when the codec
    short name has no path separator the output path differs from the
    source path, also when the output directory is the input
    directory. *)
Theorem output_differs_from_source (w : Worker) (file_path : string) :
  output_filename (ffmpeg_params w) file_path ≠ PosixPath.basename file_path ∧
  (PyStr.contains_char PosixPath.sep
     (codec_short_name (VIDEO_CODEC_AMF (ffmpeg_params w))) = false →
   output_file_path w file_path ≠ file_path).
Proof.
  assert (Hname : output_filename (ffmpeg_params w) file_path ≠
                  PosixPath.basename file_path).
  { unfold output_filename, filename_no_ext. rewrite splitext_basename.
    destruct (splitext_name_parts (PosixPath.basename file_path)) as [Hq Hext].
    destruct (PosixPath.splitext_name (PosixPath.basename file_path)) as [root ext].
    cbn [fst snd] in *. intros Heq. rewrite Hq in Heq. apply (inj _) in Heq.
    destruct Hext as [He|(e & He)]; rewrite He in Heq; discriminate. }
  split; [exact Hname|].
  intros Hcodec Heq. apply Hname.
  rewrite <- Heq at 2. unfold output_file_path. symmetry. apply basename_join.
  unfold output_filename, filename_no_ext. rewrite splitext_basename.
  destruct (splitext_name_parts (PosixPath.basename file_path)) as [Hq _].
  pose proof (basename_clean file_path) as Hclean.
  destruct (PosixPath.splitext_name (PosixPath.basename file_path)) as [root ext].
  cbn [fst snd] in *.
  rewrite Hq, contains_char_app in Hclean. apply orb_false_elim in Hclean as [Hroot _].
  rewrite !contains_char_app, Hroot, Hcodec. reflexivity.
Qed.

Lemma output_differs_from_source_witness :
  output_file_path (new_worker "/in" "/in" DEFAULT_FFMPEG_CONFIG ["mp4"]) "/in/a.mp4"
    ≠ "/in/a.mp4".
Proof.
  apply (proj2 (output_differs_from_source
                  (new_worker "/in" "/in" DEFAULT_FFMPEG_CONFIG ["mp4"]) "/in/a.mp4")).
  reflexivity.
Defined.

(** * Properties of the front end *)

Section Formats.

Import PyStr.

(** A field without separator followed by a separator is the first
    field of the split. *)
Lemma split_app (c : ascii) (fld rest : string) :
  contains_char c fld = false →
  split c (fld +:+ String c rest) = fld :: split c rest.
Proof.
  intros Hfld. induction fld as [|a fld IH].
  - rewrite str_app_nil_l. simpl. by rewrite Ascii.eqb_refl.
  - rewrite str_app_cons. simpl in *.
    destruct (Ascii.eqb a c); [done|]. by rewrite (IH Hfld).
Qed.

Lemma concat_cons (sep x y : string) (l : list string) :
  String.concat sep (x :: y :: l) = x +:+ sep +:+ String.concat sep (y :: l).
Proof. done. Qed.

(** [split] undoes [join] on fields without separator. *)
Lemma split_join (c : ascii) (l : list string) :
  l ≠ [] → Forall (λ fld, contains_char c fld = false) l →
  split c (join (String c "") l) = l.
Proof.
  intros Hne Hl. unfold join. induction Hl as [|x l Hx Hl IH]; [done|].
  destruct l as [|y l].
  - simpl. by apply split_absent.
  - rewrite concat_cons, str_app_cons, str_app_nil_l, (split_app _ _ _ Hx).
    by rewrite IH.
Qed.

Lemma concat_head (sep : string) (a : ascii) (x : string) (l : list string) :
  String.concat sep (String a x :: l) = String a (String.concat sep (x :: l)).
Proof. by destruct l. Qed.

(** Joining with a comma and a space is joining with a comma after a
    space has been put before every field but the first. *)
Lemma join_comma_space (x : string) (l : list string) :
  join ", " (x :: l) = join "," (x :: map (String " "%char) l).
Proof.
  unfold join. revert x. induction l as [|y l IH]; intros x; [done|].
  rewrite map_cons, !concat_cons, IH, concat_head.
  by rewrite !str_app_cons, !str_app_nil_l.
Qed.

Lemma strip_space (s : string) : strip (String " "%char s) = strip s.
Proof. done. Qed.

Lemma clean_extension_field (e : string) :
  clean_extension e →
  truthy (strip e) = true ∧ lstrip_char "."%char (strip e) = e.
Proof.
  intros (Hne & _ & Hstrip & Hdot & _). rewrite Hstrip. split; [|done].
  by destruct e.
Qed.

(** What line 350 makes of fields that are clean extensions, each
    possibly after one space. *)
Lemma parse_fields (l : list string) :
  Forall clean_extension l →
  map (λ ext, lstrip_char "."%char (strip ext))
      (List.filter (λ ext, truthy (strip ext)) l) = l ∧
  map (λ ext, lstrip_char "."%char (strip ext))
      (List.filter (λ ext, truthy (strip ext)) (map (String " "%char) l)) = l.
Proof.
  induction 1 as [|e l He Hl [IH1 IH2]]; [done|].
  destruct (clean_extension_field e He) as [Ht Hd].
  rewrite map_cons. cbn [List.filter]. rewrite strip_space, Ht. cbn [map].
  rewrite strip_space, Hd. by rewrite IH1, IH2.
Qed.

End Formats.

(** X13. The formats field round-trips: a list of clean extensions
    joined with commas, or with a comma and a space as the start of a
    conversion logs it, is parsed back to the same list. *)
Theorem parse_formats_round_trip (l : list string) :
  Forall clean_extension l →
  parse_formats (PyStr.join "," l) = l ∧ parse_formats (PyStr.join ", " l) = l.
Proof.
  intros Hl. destruct l as [|x l]; [done|].
  assert (Hcomma : Forall (λ fld, PyStr.contains_char ","%char fld = false) (x :: l)).
  { eapply Forall_impl; [exact Hl|]. by intros e (_ & He & _). }
  destruct (parse_fields (x :: l) Hl) as [H1 _].
  split.
  - unfold parse_formats. by rewrite split_join.
  - rewrite join_comma_space. unfold parse_formats. rewrite split_join; [|done|].
    + apply Forall_cons_1 in Hl as [Hx Hl].
      destruct (parse_fields l Hl) as [_ H2].
      destruct (clean_extension_field x Hx) as [Ht Hd].
      cbn [List.filter]. rewrite Ht. cbn [map]. by rewrite Hd, H2.
    + apply Forall_cons_1 in Hcomma as [Hx Hc]. apply Forall_cons_2; [done|].
      apply Forall_map. eapply Forall_impl; [exact Hc|].
      intros e He. simpl. exact He.
Qed.

Lemma parse_formats_round_trip_witness :
  parse_formats "mp4,mkv" = ["mp4"; "mkv"] ∧ parse_formats "mp4, mkv" = ["mp4"; "mkv"].
Proof.
  apply (parse_formats_round_trip ["mp4"; "mkv"]).
  repeat constructor; done.
Defined.

Section Fields.

Variable w : Worker.
Variable file_path : string.

Let cfg := ffmpeg_params w.

(** The command does not read the QP field unless the mode is [cqp]. *)
Lemma qp_unread (qp : string) :
  RC_MODE cfg ≠ "cqp" →
  ffmpeg_cmd_list (with_params (with_qp qp cfg) w) file_path = ffmpeg_cmd_list w file_path.
Proof.
  intros Hmode.
  unfold ffmpeg_cmd_list, ffmpeg_cmd_args, rate_control, output_file_path, output_filename.
  cbn [with_params with_qp ffmpeg_params output_dir RC_MODE VIDEO_CODEC_AMF QP_VALUE
       BITRATE_VBR MAX_BITRATE_VBR QUALITY_PRESET AUDIO_CODEC AUDIO_BITRATE].
  fold cfg. destruct (String.eqb_spec (RC_MODE cfg) "cqp") as [Heq|_]; [done|].
  by destruct (String.eqb (RC_MODE cfg) "vbr_peak").
Qed.

(** The command does not read the bitrate fields unless the mode is
    [vbr_peak]. *)
Lemma bitrates_unread (bitrate max_bitrate : string) :
  RC_MODE cfg ≠ "vbr_peak" →
  ffmpeg_cmd_list (with_params (with_bitrates bitrate max_bitrate cfg) w) file_path =
  ffmpeg_cmd_list w file_path.
Proof.
  intros Hmode.
  unfold ffmpeg_cmd_list, ffmpeg_cmd_args, rate_control, output_file_path, output_filename.
  cbn [with_params with_bitrates ffmpeg_params output_dir RC_MODE VIDEO_CODEC_AMF QP_VALUE
       BITRATE_VBR MAX_BITRATE_VBR QUALITY_PRESET AUDIO_CODEC AUDIO_BITRATE].
  fold cfg. destruct (String.eqb (RC_MODE cfg) "cqp"); [done|].
  by destruct (String.eqb_spec (RC_MODE cfg) "vbr_peak").
Qed.

End Fields.

(** X14. A field the front end hides has no effect on the command:
    when the QP field is hidden the command is the same for every QP
    text, and when the bitrate fields are hidden it is the same for
    every pair of bitrate texts. *)
Theorem hidden_fields_unused (w : Worker) (file_path : string) :
  (qp_visible (update_ffmpeg_options_visibility (RC_MODE (ffmpeg_params w))) = false →
   ∀ qp,
     ffmpeg_cmd_list (with_params (with_qp qp (ffmpeg_params w)) w) file_path =
     ffmpeg_cmd_list w file_path) ∧
  (bitrate_visible (update_ffmpeg_options_visibility (RC_MODE (ffmpeg_params w))) = false →
   max_bitrate_visible (update_ffmpeg_options_visibility (RC_MODE (ffmpeg_params w))) = false ∧
   ∀ bitrate max_bitrate,
     ffmpeg_cmd_list (with_params (with_bitrates bitrate max_bitrate (ffmpeg_params w)) w)
                     file_path =
     ffmpeg_cmd_list w file_path).
Proof.
  unfold update_ffmpeg_options_visibility. cbn [qp_visible bitrate_visible max_bitrate_visible].
  split.
  - intros Hqp qp. apply qp_unread. intros Heq. by rewrite Heq in Hqp.
  - intros Hb. split; [done|]. intros bitrate max_bitrate. apply bitrates_unread.
    intros Heq. by rewrite Heq in Hb.
Qed.

Lemma hidden_fields_unused_witness :
  ffmpeg_cmd_list (with_params (with_qp "51" (ffmpeg_params vbr_worker)) vbr_worker)
                  "/in/a.mp4" =
  ffmpeg_cmd_list vbr_worker "/in/a.mp4" ∧
  ffmpeg_cmd_list (with_params (with_bitrates "1k" "2k" (ffmpeg_params sample_worker))
                               sample_worker) "/in/a.mp4" =
  ffmpeg_cmd_list sample_worker "/in/a.mp4".
Proof.
  split.
  - apply (proj1 (hidden_fields_unused vbr_worker "/in/a.mp4")). reflexivity.
  - apply (proj2 (hidden_fields_unused sample_worker "/in/a.mp4")). reflexivity.
Defined.

(** X15. In mode [cbr], which the visibility slot provides for, the
    two bitrate fields are shown but the worker does not read them: it
    announces the fallback and builds the command of constant QP 23
    with preset "quality", whatever the bitrate fields hold. *)
Theorem cbr_bitrates_shown_unused (w : Worker) (file_path : string) :
  RC_MODE (ffmpeg_params w) = "cbr" →
  bitrate_visible (update_ffmpeg_options_visibility (RC_MODE (ffmpeg_params w))) = true ∧
  max_bitrate_visible (update_ffmpeg_options_visibility (RC_MODE (ffmpeg_params w))) = true ∧
  qp_visible (update_ffmpeg_options_visibility (RC_MODE (ffmpeg_params w))) = false ∧
  rate_control (ffmpeg_params w) =
    ([Flag "-c:v"; Value (VIDEO_CODEC_AMF (ffmpeg_params w)); Flag "-rc"; Value "cqp";
      Flag "-qp"; Value "23"; Flag "-quality"; Value "quality"],
     [Progress (fallback_notice (ffmpeg_params w))]) ∧
  ∀ bitrate max_bitrate,
    ffmpeg_cmd_list (with_params (with_bitrates bitrate max_bitrate (ffmpeg_params w)) w)
                    file_path =
    ffmpeg_cmd_list w file_path.
Proof.
  intros Hmode. repeat split.
  - by rewrite Hmode.
  - by rewrite Hmode.
  - by rewrite Hmode.
  - unfold rate_control. by rewrite Hmode.
  - intros bitrate max_bitrate. apply bitrates_unread. by rewrite Hmode.
Qed.

Lemma cbr_bitrates_shown_unused_witness :
  ffmpeg_cmd_list (with_params (with_bitrates "1k" "2k" (ffmpeg_params cbr_worker))
                               cbr_worker) "/in/a.mp4" =
  ffmpeg_cmd_list cbr_worker "/in/a.mp4".
Proof.
  apply (cbr_bitrates_shown_unused cbr_worker "/in/a.mp4"). reflexivity.
Defined.

(** Membership of an action in an explicit list of actions. *)
Ltac in_actions H :=
  unfold no_output_warning, no_input_warning, no_format_warning in H;
  repeat (apply elem_of_cons in H as [H|H]; [try discriminate H|]);
  try (by apply elem_of_nil in H).

Ltac find_action :=
  repeat first [ by apply list_elem_of_here | apply list_elem_of_further ].

Section Output_folder.

Lemma default_output_not_empty (dir : string) :
  PosixPath.join dir default_output_name ≠ "".
Proof.
  unfold PosixPath.join.
  change (PyStr.startswith (String PosixPath.sep "") default_output_name) with false.
  cbv iota. destruct (negb (PyStr.truthy dir) || PyStr.endswith_char PosixPath.sep dir);
    by destruct dir.
Qed.

Lemma effective_output_not_empty (f : Form) : effective_output f ≠ "".
Proof.
  unfold effective_output. destruct (output_dir_path f) eqn:Ho; [|done].
  apply default_output_not_empty.
Qed.

End Output_folder.

(** X16. What [start_conversion_process] lets through: a worker is
    started exactly when an input folder is set and the formats field
    yields an extension, and otherwise exactly one of the two warnings
    about the input folder and the formats is shown; the warning about
    the output folder is never shown.  The started worker gets the
    input folder, the chosen output folder or the default below the
    input folder, the settings and the parsed formats, and the buttons
    are switched.  The default output folder is filled in also when
    the start is refused for the formats. *)
Theorem start_conversion_guard (f : Form) :
  let after := (start_conversion_process f).1 in
  let tr := (start_conversion_process f).2 in
  (ShowWarning no_output_warning ∉ tr) ∧
  ((∃ message, ShowWarning message ∈ tr) ↔
     input_dir_path f = "" ∨ parse_formats (input_formats_text f) = []) ∧
  ((∃ w, StartWorker w ∈ tr) ↔
     input_dir_path f ≠ "" ∧ parse_formats (input_formats_text f) ≠ []) ∧
  (∀ w, StartWorker w ∈ tr →
     w = new_worker (input_dir_path f) (effective_output f) (form_params f)
                    (parse_formats (input_formats_text f)) ∧
     input_dir w ≠ "" ∧ output_dir w ≠ "" ∧
     EnableStart false ∈ tr ∧ EnableCancel true ∈ tr) ∧
  (input_dir_path f ≠ "" → output_dir_path after = effective_output f) ∧
  (input_dir_path f = "" ∨ output_dir_path f ≠ "" → after = f).
Proof.
  pose proof (effective_output_not_empty f) as Hout.
  destruct f as [i o t p]. unfold start_conversion_process, effective_output in *.
  cbn [input_dir_path output_dir_path input_formats_text form_params] in *.
  destruct i as [|a i]; [|destruct o as [|b o]];
    cbn [PyStr.truthy negb fst snd set_output input_dir_path output_dir_path
         input_formats_text form_params] in *;
    [|destruct (parse_formats t) as [|e exts]..].
  all: cbn [fst snd app map config_log_lines output_dir_path].
  all: split; [intros H; in_actions H|].
  all: split; [split; [intros [message H]; in_actions H; auto|
                       intros [H|H]; try done; eexists; find_action]|].
  all: split; [split; [intros [w H]; in_actions H; done|
                       intros [? ?]; try done; eexists; find_action]|].
  all: split; [intros w H; in_actions H; injection H as ->;
               cbn [input_dir output_dir new_worker];
               repeat (split; [first [done | solve [find_action]]|]);
               solve [find_action]|].
  all: split; [done|].
  all: intros [H|H]; done.
Qed.

Lemma start_conversion_guard_witness :
  output_dir_path (start_conversion_process sample_form).1 = "/in/convertidos_pyqt_universal".
Proof.
  apply (proj1 (proj2 (proj2 (proj2 (proj2 (start_conversion_guard sample_form)))))).
  discriminate.
Defined.

(** The cases of [start_conversion_process], by the two folders and
    the parsed formats. *)
Ltac start_cases f :=
  let i := fresh "i" in
  let o := fresh "o" in
  let t := fresh "t" in
  let p := fresh "p" in
  destruct f as [i o t p]; unfold start_conversion_process, effective_output in *;
  cbn [input_dir_path output_dir_path input_formats_text form_params] in *;
  destruct i; [|destruct o];
  cbn [PyStr.truthy negb fst snd set_output input_dir_path output_dir_path
       input_formats_text form_params] in *;
  [|destruct (parse_formats t)..];
  cbn [fst snd app map config_log_lines output_dir_path] in *.

Section Started.

Variable f : Form.

Lemma started_worker (w : Worker) :
  StartWorker w ∈ (start_conversion_process f).2 →
  w = new_worker (input_dir_path f) (effective_output f) (form_params f)
                 (parse_formats (input_formats_text f)).
Proof.
  intros H. start_cases f; in_actions H; by injection H as ->.
Qed.

Lemma start_when_ready :
  input_dir_path f ≠ "" → parse_formats (input_formats_text f) ≠ [] →
  StartWorker (new_worker (input_dir_path f) (effective_output f) (form_params f)
                          (parse_formats (input_formats_text f)))
    ∈ (start_conversion_process f).2.
Proof.
  intros Hin Hfmt. start_cases f; try done; find_action.
Qed.

Lemma start_warnings (message : string) :
  input_dir_path f ≠ "" →
  ShowWarning message ∈ (start_conversion_process f).2 → message = no_format_warning.
Proof.
  intros Hin H. start_cases f; try done; in_actions H; by injection H as ->.
Qed.

End Started.

Lemma filter_truthy_empty (l : list string) :
  Forall (λ e, e = "") l → List.filter PyStr.truthy l = [].
Proof. induction 1 as [|e l -> _ IH]; [done|]. exact IH. Qed.

(** X17. The check of the formats field does not see extensions that
    are empty after the leading dots are dropped: when the field
    yields only such entries (a single dot, say) the worker is started
    all the same, with no extension to look for, and its run creates
    the output folder, lists nothing, launches nothing and ends with
    the message that no input format was given. *)
Theorem dots_pass_the_formats_check (f : Form) (env : Env) :
  input_dir_path f ≠ "" →
  parse_formats (input_formats_text f) ≠ [] →
  Forall (λ e, e = "") (parse_formats (input_formats_text f)) →
  makedirs_error env = None →
  ∃ w, StartWorker w ∈ (start_conversion_process f).2 ∧
       (∀ message, ShowWarning message ∉ (start_conversion_process f).2) ∧
       target_extensions w = [] ∧
       trace (run_conversions w env) =
         [MakeDirs (output_dir w);
          Emit (Progress "Nenhum formato de entrada especificado.");
          Emit (Finished "Nenhum formato de entrada para procurar.")].
Proof.
  intros Hin Hfmt Hdots Hmk. eexists. split; [by apply start_when_ready|].
  split; [|split].
  - intros message Hw. pose proof (start_warnings f message Hin Hw) as ->.
    clear Hdots. start_cases f; try done; in_actions Hw.
  - cbn [target_extensions new_worker]. by rewrite (filter_truthy_empty _ Hdots).
  - unfold run_conversions, makedirs. rewrite Hmk.
    cbn [target_extensions new_worker]. by rewrite (filter_truthy_empty _ Hdots).
Qed.

Lemma dots_pass_the_formats_check_witness :
  ∃ w, StartWorker w ∈ (start_conversion_process dot_form).2 ∧
       (∀ message, ShowWarning message ∉ (start_conversion_process dot_form).2) ∧
       target_extensions w = [] ∧
       trace (run_conversions w three_files_env) =
         [MakeDirs (output_dir w);
          Emit (Progress "Nenhum formato de entrada especificado.");
          Emit (Finished "Nenhum formato de entrada para procurar.")].
Proof.
  apply (dots_pass_the_formats_check dot_form three_files_env).
  - discriminate.
  - discriminate.
  - repeat constructor.
  - reflexivity.
Defined.

Section Folders.

Import PyStr PosixPath.

Lemma truthy_not_empty (s : string) : truthy s = true ↔ s ≠ "".
Proof. by destruct s. Qed.

(** A directory that is not empty and does not end with the separator
    is joined to a relative name with one separator. *)
Lemma join_relative (dir name : string) :
  dir ≠ "" → endswith_char sep dir = false → contains_char sep name = false →
  join dir name = dir +:+ String sep name.
Proof.
  intros Hdir Hend Hname. unfold join, startswith.
  assert (String.prefix (String sep "") name = false) as ->.
  { destruct name as [|a name]; [done|].
    change (contains_char sep (String a name))
      with (if Ascii.eqb a sep then true else contains_char sep name) in Hname.
    destruct (Ascii.eqb_spec a sep) as [->|Hne]; [done|].
    cbn [String.prefix]. destruct (ascii_dec sep a); [congruence|done]. }
  rewrite Hend. by destruct dir.
Qed.

Lemma all_char_app_sep (c : ascii) (s : string) :
  s ≠ "" → endswith_char c s = false → all_char c (s +:+ String c "") = false.
Proof.
  induction s as [|a s IH]; [done|]. intros _ Hend. rewrite str_app_cons. cbn.
  destruct s as [|b s].
  - cbn in Hend. by rewrite Hend.
  - rewrite IH; [by rewrite andb_false_r|done|exact Hend].
Qed.

Lemma rstrip_char_app_sep (c : ascii) (s : string) :
  s ≠ "" → endswith_char c s = false → rstrip_char c (s +:+ String c "") = s.
Proof.
  induction s as [|a s IH]; [done|]. intros _ Hend. rewrite str_app_cons.
  cbn [rstrip_char]. destruct s as [|b s].
  - rewrite str_app_nil_l. cbn. cbn in Hend. by rewrite Ascii.eqb_refl, Hend.
  - rewrite IH; [done|done|exact Hend].
Qed.

(** [dirname] undoes [join] with a relative name. *)
Lemma dirname_join (dir name : string) :
  dir ≠ "" → endswith_char sep dir = false → contains_char sep name = false →
  dirname (join dir name) = dir.
Proof.
  intros Hdir Hend Hname. rewrite join_relative by done. unfold dirname.
  rewrite (before_last_app _ _ _ Hname), all_char_app_sep by done.
  by apply rstrip_char_app_sep.
Qed.

Lemma select_input_folder_form (folder : string) (f : Form) :
  folder ≠ "" →
  (select_input_folder folder f).1 =
    if negb (truthy (output_dir_path f)) ||
       String.eqb (output_dir_path f) (join (dirname folder) default_output_name)
    then set_output (join folder default_output_name) (set_input folder f)
    else set_input folder f.
Proof.
  intros Hne. unfold select_input_folder. destruct folder as [|a folder]; [done|].
  cbn [truthy]. cbv zeta. cbn [set_input output_dir_path input_dir_path].
  by destruct (negb (truthy (output_dir_path f)) || _).
Qed.

Lemma str_app_length (s t : string) :
  String.length (s +:+ t) = String.length s + String.length t.
Proof. induction s as [|a s IH]; [done|]. rewrite str_app_cons. cbn. by rewrite IH. Qed.

Lemma str_app_cancel_r (s t u : string) : s +:+ u = t +:+ u → s = t.
Proof.
  revert t. induction s as [|a s IH]; intros [|b t] Heq; [done|..].
  - apply (f_equal String.length) in Heq.
    rewrite str_app_nil_l, str_app_length in Heq. cbn in Heq. lia.
  - apply (f_equal String.length) in Heq.
    rewrite str_app_nil_l, str_app_length in Heq. cbn in Heq. lia.
  - rewrite !str_app_cons in Heq. injection Heq as -> Heq. by rewrite (IH t Heq).
Qed.

Lemma all_char_app (c : ascii) (s t : string) :
  all_char c (s +:+ t) = all_char c s && all_char c t.
Proof.
  induction s as [|a s IH]; [done|]. rewrite str_app_cons. cbn.
  by rewrite IH, andb_assoc.
Qed.

Lemma all_char_end (c : ascii) (s : string) :
  all_char c s = true → s ≠ "" → endswith_char c s = true.
Proof.
  induction s as [|a s IH]; [done|]. cbn. intros [Ha Hs]%andb_prop _.
  destruct s as [|b s]; [done|]. by apply IH.
Qed.

Lemma rstrip_char_end (c : ascii) (s : string) :
  endswith_char c (rstrip_char c s) = false.
Proof.
  induction s as [|a s IH]; [done|]. cbn [rstrip_char].
  destruct (rstrip_char c s) as [|b r].
  - destruct (Ascii.eqb a c) eqn:Ha; [done|]. cbn. exact Ha.
  - exact IH.
Qed.

(** What [dirname] returns: nothing, separators only, or a text that
    does not end with the separator. *)
Lemma dirname_shape (p : string) :
  dirname p = "" ∨ all_char sep (dirname p) = true ∨ endswith_char sep (dirname p) = false.
Proof.
  unfold dirname. destruct (before_last sep p) as [dir|]; [|by left].
  destruct (all_char sep (dir +:+ String sep "")) eqn:Hall.
  - right. by left.
  - right. right. apply rstrip_char_end.
Qed.

(** For a folder that does not end with the separator, the default
    output beside [p] is the default output below the folder exactly
    when the folder is the parent of [p]. *)
Lemma default_beside (folder p : string) :
  folder ≠ "" → endswith_char sep folder = false →
  String.eqb (join folder default_output_name) (join (dirname p) default_output_name) =
  String.eqb (dirname p) folder.
Proof.
  intros Hne Hend.
  destruct (String.eqb_spec (dirname p) folder) as [->|Hdiff]; [apply String.eqb_refl|].
  apply String.eqb_neq. intros Heq. apply Hdiff.
  rewrite (join_relative folder) in Heq by done.
  destruct (dirname_shape p) as [Hd|[Hd|Hd]].
  - rewrite Hd in Heq. change (join "" default_output_name) with default_output_name in Heq.
    apply (f_equal String.length) in Heq.
    rewrite str_app_length in Heq. destruct folder; [done|]. cbn in Heq. lia.
  - destruct (dirname p) as [|d dir] eqn:Hdir.
    { change (join "" default_output_name) with default_output_name in Heq.
      apply (f_equal String.length) in Heq.
      rewrite str_app_length in Heq. destruct folder; [done|]. cbn in Heq. lia. }
    pose proof (all_char_end _ _ Hd) as Hlast.
    destruct (endswith_char_cut _ _ (Hlast ltac:(done))) as (dir' & Hcut).
    unfold join, startswith in Heq.
    change (String.prefix (String sep "") default_output_name) with false in Heq.
    cbv iota in Heq. rewrite (Hlast ltac:(done)), orb_true_r, Hcut, str_app_assoc in Heq.
    rewrite str_app_cons, str_app_nil_l in Heq.
    apply str_app_cancel_r in Heq. subst folder.
    rewrite Hcut, all_char_app in Hd. apply andb_prop in Hd as [Hd _].
    rewrite (all_char_end _ _ Hd Hne) in Hend. done.
  - destruct (dirname p) as [|d dir] eqn:Hdir.
    { change (join "" default_output_name) with default_output_name in Heq.
      apply (f_equal String.length) in Heq.
      rewrite str_app_length in Heq. destruct folder; [done|]. cbn in Heq. lia. }
    rewrite join_relative in Heq by done. symmetry. by apply str_app_cancel_r in Heq.
Qed.

End Folders.

(** X18. Choosing an input folder: the folder is remembered, the
    output folder is never left empty (an empty one is replaced by the
    default below the chosen folder, any other is kept or replaced by
    that default), the other fields are untouched, choosing the same
    folder again changes nothing, and a start that follows can only
    be refused for the formats. *)
Theorem select_input_folder_effect (folder : string) (f : Form) :
  folder ≠ "" →
  let after := (select_input_folder folder f).1 in
  input_dir_path after = folder ∧
  output_dir_path after ≠ "" ∧
  (output_dir_path f = "" →
   output_dir_path after = PosixPath.join folder default_output_name) ∧
  (output_dir_path after = output_dir_path f ∨
   output_dir_path after = PosixPath.join folder default_output_name) ∧
  input_formats_text after = input_formats_text f ∧
  form_params after = form_params f ∧
  (select_input_folder folder after).1 = after ∧
  ∀ message,
    ShowWarning message ∈ (start_conversion_process after).2 → message = no_format_warning.
Proof.
  intros Hne. cbv zeta.
  assert (Hin : input_dir_path (select_input_folder folder f).1 = folder).
  { rewrite select_input_folder_form by done. by destruct (_ || _). }
  split; [exact Hin|].
  split; [|split; [|split; [|split; [|split; [|split]]]]].
  - rewrite select_input_folder_form by done.
    destruct (output_dir_path f) as [|b o] eqn:Ho.
    + cbn. apply default_output_not_empty.
    + cbn [PyStr.truthy negb orb]. destruct (String.eqb _ _); cbn.
      * apply default_output_not_empty.
      * by rewrite Ho.
  - intros Ho. rewrite select_input_folder_form by done. by rewrite Ho.
  - rewrite select_input_folder_form by done. destruct (_ || _); [by right|by left].
  - rewrite select_input_folder_form by done. by destruct (_ || _).
  - rewrite select_input_folder_form by done. by destruct (_ || _).
  - rewrite (select_input_folder_form folder (select_input_folder folder f).1) by done.
    rewrite (select_input_folder_form folder f) by done.
    destruct f as [i o t p]. cbn [output_dir_path input_dir_path set_input set_output].
    destruct (negb (PyStr.truthy o) || _) eqn:Hc.
    + unfold set_input, set_output.
      cbn [output_dir_path input_dir_path input_formats_text form_params].
      by destruct (negb (PyStr.truthy (PosixPath.join _ _)) || _).
    + unfold set_input, set_output.
      cbn [output_dir_path input_dir_path input_formats_text form_params]. by rewrite Hc.
  - intros message. apply start_warnings. by rewrite Hin.
Qed.

Lemma select_input_folder_effect_witness :
  output_dir_path (select_input_folder "/videos" dot_form).1 ≠ "".
Proof.
  apply (select_input_folder_effect "/videos" dot_form). discriminate.
Defined.

(** X19. A suggested output folder outlives the input folder it was
    made for.  After a first input folder (not ending with a slash)
    was chosen with no output folder set, the output folder is the
    default below it; when a second input folder is chosen, the output
    folder moves to the default below the second one only if the
    first folder is the parent of the second, as for every direct
    sub-folder, and otherwise still points below the first folder. *)
Theorem suggestion_after_second_selection (first_folder second_folder : string) (f : Form) :
  output_dir_path f = "" →
  first_folder ≠ "" → PyStr.endswith_char PosixPath.sep first_folder = false →
  second_folder ≠ "" →
  let once := (select_input_folder first_folder f).1 in
  let twice := (select_input_folder second_folder once).1 in
  output_dir_path once = PosixPath.join first_folder default_output_name ∧
  input_dir_path twice = second_folder ∧
  output_dir_path twice =
    (if String.eqb (dirname second_folder) first_folder
     then PosixPath.join second_folder default_output_name
     else PosixPath.join first_folder default_output_name) ∧
  ∀ child, PyStr.contains_char PosixPath.sep child = false →
           dirname (PosixPath.join first_folder child) = first_folder.
Proof.
  intros Ho Hfirst Hend Hsecond. cbv zeta.
  assert (Honce : output_dir_path (select_input_folder first_folder f).1 =
                  PosixPath.join first_folder default_output_name).
  { rewrite select_input_folder_form by done. by rewrite Ho. }
  split; [exact Honce|]. split; [|split].
  - rewrite select_input_folder_form by done. by destruct (_ || _).
  - rewrite select_input_folder_form by done. rewrite Honce.
    assert (PyStr.truthy (PosixPath.join first_folder default_output_name) = true) as ->
      by apply truthy_not_empty, default_output_not_empty.
    cbn [negb orb]. rewrite default_beside by done.
    destruct (String.eqb (dirname second_folder) first_folder); [done|].
    cbn [output_dir_path set_input]. exact Honce.
  - intros child Hchild. by apply dirname_join.
Qed.

Lemma suggestion_after_second_selection_witness :
  output_dir_path
    (select_input_folder "/films" (select_input_folder "/videos" dot_form).1).1 =
  "/videos/convertidos_pyqt_universal".
Proof.
  apply (suggestion_after_second_selection "/videos" "/films" dot_form); try discriminate;
    reflexivity.
Defined.

(** X20. A chosen output folder is the one the conversion writes to:
    after an output folder was chosen, a start neither replaces it nor
    warns about it, and the worker it starts gets that folder and the
    input folder of the window. *)
Theorem chosen_output_reaches_worker (folder : string) (f : Form) :
  folder ≠ "" →
  let after := (select_output_folder folder f).1 in
  output_dir_path after = folder ∧
  input_dir_path after = input_dir_path f ∧
  (start_conversion_process after).1 = after ∧
  ∀ w, StartWorker w ∈ (start_conversion_process after).2 →
       output_dir w = folder ∧ input_dir w = input_dir_path f ∧
       ffmpeg_params w = form_params f.
Proof.
  intros Hne. cbv zeta. unfold select_output_folder.
  destruct folder as [|a folder]; [done|]. cbn [PyStr.truthy fst].
  split; [done|]. split; [done|]. split.
  - destruct f as [i o t p]. unfold start_conversion_process.
    cbn [set_output input_dir_path output_dir_path input_formats_text form_params
         PyStr.truthy negb].
    destruct i; [done|]. cbn [PyStr.truthy negb]. by destruct (parse_formats t).
  - intros w ->%started_worker. by destruct f.
Qed.

Lemma chosen_output_reaches_worker_witness :
  output_dir_path (select_output_folder "/out" sample_form).1 = "/out".
Proof.
  apply (chosen_output_reaches_worker "/out" sample_form). discriminate.
Defined.
